(** * ghw, package pci (Linux): PCI device resolution

    A shallow embedding of [pkg/pci/pci_linux.go]: the modalias decoder,
    the five lookups into the pcidb tables, [GetDevice] and [ListDevices],
    followed by the properties established about them. *)

From Stdlib Require Import Strings.String Strings.Ascii Strings.Byte NArith.
From stdpp Require Import base option list gmap strings.

Local Open Scope string_scope.
Local Open Scope list_scope.
Local Open Scope nat_scope.
Local Open Scope stdpp_scope.
#[local] Set Warnings "-register-all,-clear-no-such-hyp".

(** ** Go runtime values *)

(** A Go computation either returns or panics. *)
Inductive result (A : Type) : Type :=
  | Ret (a : A)
  | Panic.
Arguments Ret {A} a.
Arguments Panic {A}.

#[export] Instance result_ret : MRet result := fun A a => Ret a.
#[export] Instance result_bind : MBind result := fun A B f r =>
  match r with
  | Ret a => f a
  | Panic => Panic
  end.

(** A pointer [*T] is either nil ([None]) or points to a value. *)
Abbreviation ptr T := (option T) (only parsing).

(** A byte slice whose first element is the first element of its backing
    array: the array gives the capacity, [len] the length. *)
Record slice : Type := mkSlice {
  backing : list byte;
  len : nat
}.

Definition cap (s : slice) : nat := length (backing s).

(** The bytes a slice holds, the first [len] of the array. *)
Definition bytes_of (s : slice) : list byte := take (len s) (backing s).

Definition slice_wf (s : slice) : Prop := (len s ≤ cap s)%nat.

(** The slice over the bytes of a string, with no spare capacity. *)
Definition slice_of_string (s : string) : slice :=
  {| backing := list_byte_of_string s; len := String.length s |}.

(** The slice left by reading the bytes of a string into a zeroed buffer
    of [n] bytes, which is how [ioutil.ReadFile] makes its result: the
    capacity is that of the buffer (512 bytes or more in the Go releases
    at hand), the length that of the file. *)
Definition slice_in_buffer (s : string) (n : nat) : slice :=
  {| backing :=
       list_byte_of_string s ++ replicate (n - String.length s) x00;
     len := String.length s |}.

(** [sub l lo hi] is the elements of [l] at positions [lo], ..., [hi - 1]. *)
Definition sub {A} (l : list A) (lo hi : nat) : list A :=
  take (hi - lo) (drop lo l).

(** The slice expression [s[lo:hi]] on a slice: Go checks
    [lo <= hi <= cap(s)] and panics otherwise; the bound is the capacity,
    not the length. *)
Definition slice_expr (s : slice) (lo hi : nat) : result (list byte) :=
  if bool_decide (lo ≤ hi ∧ hi ≤ cap s)%nat
  then Ret (sub (backing s) lo hi)
  else Panic.

(** ** strings.ToLower (Go standard library)

    The ASCII path is written out; a string with a byte of 0x80 or more is
    handed to [strings.Map(unicode.ToLower, s)], which is kept abstract. *)

Definition is_upper (c : ascii) : bool :=
  (65 <=? N_of_ascii c)%N && (N_of_ascii c <=? 90)%N.

Definition lower_byte (c : ascii) : ascii :=
  if is_upper c then ascii_of_N (N_of_ascii c + 32) else c.

(** The scanning loop: it stops at the first byte that is not ASCII. *)
Fixpoint scan_ascii (s : string) (hasUpper : bool) : bool * bool :=
  match s with
  | EmptyString => (true, hasUpper)
  | String c rest =>
      if (128 <=? N_of_ascii c)%N then (false, hasUpper)
      else scan_ascii rest (hasUpper || is_upper c)
  end.

Fixpoint map_bytes (f : ascii → ascii) (s : string) : string :=
  match s with
  | EmptyString => EmptyString
  | String c rest => String (f c) (map_bytes f rest)
  end.

Section Pci.

(** [strings.Map(unicode.ToLower, s)], used for strings that are not ASCII. *)
Variable Map_unicode_ToLower : string → string.

Definition strings_ToLower (s : string) : string :=
  let '(isASCII, hasUpper) := scan_ascii s false in
  if isASCII then
    if negb hasUpper then s else map_bytes lower_byte s
  else Map_unicode_ToLower s.

(** ** The files the package reads *)

(** What [os.Stat] and [ioutil.ReadFile] find at a path. *)
Inductive file : Type :=
  | StatError
  | ReadError
  | Readable (data : slice).

Record FileSystem : Type := mkFS {
  files : string → file;
  (** [ioutil.ReadDir]: the names of the entries, or an error *)
  ReadDir : string → option (list string)
}.

(** ** The modalias decoder *)

Record deviceModaliasInfo : Type := mkModalias {
  vendorID : string;
  productID : string;
  subproductID : string;
  subvendorID : string;
  classID : string;
  subclassID : string;
  progIfaceID : string
}.

Definition parseModaliasFile (fs : FileSystem) (fp : string)
  : result (ptr deviceModaliasInfo) :=
  match files fs fp with
  | StatError => Ret None
  | ReadError => Ret None
  | Readable data =>
      b1 ← slice_expr data 9 13;
      let vendorID := strings_ToLower (string_of_list_byte b1) in
      b2 ← slice_expr data 18 22;
      let productID := strings_ToLower (string_of_list_byte b2) in
      b3 ← slice_expr data 28 32;
      let subvendorID := strings_ToLower (string_of_list_byte b3) in
      b4 ← slice_expr data 38 42;
      let subproductID := strings_ToLower (string_of_list_byte b4) in
      b5 ← slice_expr data 44 46;
      let classID := string_of_list_byte b5 in
      b6 ← slice_expr data 48 50;
      let subclassID := string_of_list_byte b6 in
      b7 ← slice_expr data 51 53;
      let progIfaceID := string_of_list_byte b7 in
      Ret (Some {| vendorID := vendorID;
                   productID := productID;
                   subproductID := subproductID;
                   subvendorID := subvendorID;
                   classID := classID;
                   subclassID := subclassID;
                   progIfaceID := progIfaceID |})
  end.

(** ** The pcidb tables *)

(** Modelled from the spec: the record types of the pcidb package, which
    is not part of this source tree. In Go the lists hold pointers to
    records; the loader only ever stores freshly allocated records, so the
    entries are taken as the records themselves. *)
Record pcidb_ProgrammingInterface : Type := mkProgrammingInterface {
  ProgrammingInterface_ID : string;
  ProgrammingInterface_Name : string
}.

Record pcidb_Subclass : Type := mkSubclass {
  Subclass_ID : string;
  Subclass_Name : string;
  Subclass_ProgrammingInterfaces : list pcidb_ProgrammingInterface
}.

Record pcidb_Class : Type := mkClass {
  Class_ID : string;
  Class_Name : string;
  Class_Subclasses : list pcidb_Subclass
}.

Inductive pcidb_Product : Type := mkProduct {
  Product_VendorID : string;
  Product_ID : string;
  Product_Name : string;
  Product_Subsystems : list pcidb_Product
}.

Record pcidb_Vendor : Type := mkVendor {
  Vendor_ID : string;
  Vendor_Name : string;
  Vendor_Products : list pcidb_Product
}.

(** Modelled from the spec: the sentinel name [util.UNKNOWN]. *)
Definition UNKNOWN : string := "unknown".

(** Modelled from the spec: [context.Context] and the one field of
    [linuxpath.Paths] that this file reads. *)
Record Context : Type := mkContext { Chroot : string }.
Record Paths : Type := mkPaths { SysBusPciDevices : string }.

(** The three Go maps of [Info]. A lookup [m[k]] yields nil both for an
    absent key and for a key bound to nil, and the code tells neither
    apart, so a table is the partial map from a key to the record found. *)
Record Info : Type := mkInfo {
  ctx : Context;
  Classes : gmap string pcidb_Class;
  Vendors : gmap string pcidb_Vendor;
  Products : gmap string pcidb_Product
}.

(** The loop [for _, x := range l { if x.ID == id { return x } }]:
    [Some x] when the body returns [x], [None] when the loop runs out. *)
Fixpoint range_return {A} (ID : A → string) (l : list A) (id : string)
  : option A :=
  match l with
  | [] => None
  | x :: rest =>
      if String.eqb (ID x) id then Some x else range_return ID rest id
  end.

(** Dereferencing a pointer: nil panics. *)
Definition deref {A} (p : ptr A) : result A :=
  match p with
  | Some a => Ret a
  | None => Panic
  end.

(** ** The five lookups *)

Definition findPCIVendor (info : Info) (vendorID : string)
  : ptr pcidb_Vendor :=
  match Vendors info !! vendorID with
  | None =>
      Some {| Vendor_ID := vendorID;
              Vendor_Name := UNKNOWN;
              Vendor_Products := [] |}
  | Some vendor => Some vendor
  end.

Definition findPCIProduct (info : Info) (vendorID productID : string)
  : ptr pcidb_Product :=
  match Products info !! (vendorID +:+ productID) with
  | None =>
      Some {| Product_VendorID := "";
              Product_ID := productID;
              Product_Name := UNKNOWN;
              Product_Subsystems := [] |}
  | Some product => Some product
  end.

Definition unknownSubsystem (subvendorID subproductID : string)
  : pcidb_Product :=
  {| Product_VendorID := subvendorID;
     Product_ID := subproductID;
     Product_Name := UNKNOWN;
     Product_Subsystems := [] |}.

Definition findPCISubsystem (info : Info)
    (vendorID productID subvendorID subproductID : string)
  : ptr pcidb_Product :=
  let product := Products info !! (vendorID +:+ productID) in
  let subvendor := Vendors info !! subvendorID in
  match subvendor, product with
  | Some _, Some product =>
      match range_return Product_ID (Product_Subsystems product)
              subproductID with
      | Some p => Some p
      | None => Some (unknownSubsystem subvendorID subproductID)
      end
  | _, _ => Some (unknownSubsystem subvendorID subproductID)
  end.

Definition findPCIClass (info : Info) (classID : string)
  : ptr pcidb_Class :=
  match Classes info !! classID with
  | None =>
      Some {| Class_ID := classID;
              Class_Name := UNKNOWN;
              Class_Subclasses := [] |}
  | Some class => Some class
  end.

Definition unknownSubclass (subclassID : string) : pcidb_Subclass :=
  {| Subclass_ID := subclassID;
     Subclass_Name := UNKNOWN;
     Subclass_ProgrammingInterfaces := [] |}.

Definition findPCISubclass (info : Info) (classID subclassID : string)
  : ptr pcidb_Subclass :=
  match Classes info !! classID with
  | Some class =>
      match range_return Subclass_ID (Class_Subclasses class)
              subclassID with
      | Some sc => Some sc
      | None => Some (unknownSubclass subclassID)
      end
  | None => Some (unknownSubclass subclassID)
  end.

Definition unknownProgrammingInterface (progIfaceID : string)
  : pcidb_ProgrammingInterface :=
  {| ProgrammingInterface_ID := progIfaceID;
     ProgrammingInterface_Name := UNKNOWN |}.

Definition findPCIProgrammingInterface (info : Info)
    (classID subclassID progIfaceID : string)
  : result (ptr pcidb_ProgrammingInterface) :=
  subclass ← deref (findPCISubclass info classID subclassID);
  match range_return ProgrammingInterface_ID
          (Subclass_ProgrammingInterfaces subclass) progIfaceID with
  | Some pi => Ret (Some pi)
  | None => Ret (Some (unknownProgrammingInterface progIfaceID))
  end.

(** ** Locating the modalias file *)

(** Modelled from the spec: the address record of this package, whose
    declaration and parser [AddressFromString] live in another file. *)
Record Address : Type := mkAddress {
  Domain : string;
  Bus : string;
  Slot : string;
  Function : string
}.

(** [AddressFromString], nil when the string is not an address. *)
Variable AddressFromString : string → ptr Address.

(** [linuxpath.New]. *)
Variable linuxpath_New : Context → Paths.

(** [filepath.Clean] of the Go standard library. *)
Variable filepath_Clean : string → string.

(** [strings.Join(elems, "/")]. *)
Fixpoint strings_Join_sep (elems : list string) : string :=
  match elems with
  | [] => ""
  | [e] => e
  | e :: rest => e +:+ "/" +:+ strings_Join_sep rest
  end.

(** [filepath.Join] on Unix: the elements from the first one that is not
    empty are joined and cleaned; the result is empty when all are. *)
Fixpoint filepath_Join (elem : list string) : string :=
  match elem with
  | [] => ""
  | e :: rest =>
      if String.eqb e "" then filepath_Join rest
      else filepath_Clean (strings_Join_sep elem)
  end.

Definition getDeviceModaliasPath (ctx : Context) (address : string)
  : string :=
  let paths := linuxpath_New ctx in
  match AddressFromString address with
  | None => ""
  | Some pciAddr =>
      filepath_Join
        [ SysBusPciDevices paths;
          Domain pciAddr +:+ ":" +:+ Bus pciAddr +:+ ":" +:+
            Slot pciAddr +:+ "." +:+ Function pciAddr;
          "modalias" ]
  end.

(** ** Devices *)

(** Modelled from the spec: the fields of [Device] that [GetDevice]
    fills; the six resolved fields are pointers. *)
Record Device : Type := mkDevice {
  Device_Address : string;
  Device_Vendor : ptr pcidb_Vendor;
  Device_Subsystem : ptr pcidb_Product;
  Device_Product : ptr pcidb_Product;
  Device_Class : ptr pcidb_Class;
  Device_Subclass : ptr pcidb_Subclass;
  Device_ProgrammingInterface : ptr pcidb_ProgrammingInterface
}.

Definition GetDevice (fs : FileSystem) (info : Info) (address : string)
  : result (ptr Device) :=
  let fp := getDeviceModaliasPath (ctx info) address in
  if String.eqb fp "" then Ret None
  else
    parsed ← parseModaliasFile fs fp;
    match parsed with
    | None => Ret None
    | Some modaliasInfo =>
        let vendor := findPCIVendor info (vendorID modaliasInfo) in
        let product :=
          findPCIProduct info (vendorID modaliasInfo)
            (productID modaliasInfo) in
        let subsystem :=
          findPCISubsystem info (vendorID modaliasInfo)
            (productID modaliasInfo) (subvendorID modaliasInfo)
            (subproductID modaliasInfo) in
        let class := findPCIClass info (classID modaliasInfo) in
        let subclass :=
          findPCISubclass info (classID modaliasInfo)
            (subclassID modaliasInfo) in
        progIface ← findPCIProgrammingInterface info
                      (classID modaliasInfo) (subclassID modaliasInfo)
                      (progIfaceID modaliasInfo);
        Ret (Some {| Device_Address := address;
                     Device_Vendor := vendor;
                     Device_Subsystem := subsystem;
                     Device_Product := product;
                     Device_Class := class;
                     Device_Subclass := subclass;
                     Device_ProgrammingInterface := progIface |})
    end.

(** ** Enumeration *)

Definition newline : string := String (ascii_of_nat 10) EmptyString.

Definition msg_ReadDir : string :=
  "error: failed to read /sys/bus/pci/devices".

Definition msg_GetDevice (addr : string) : string :=
  "error: failed to get device information for PCI address " +:+ addr
    +:+ newline.

(** What [ListDevices] leaves behind: the slice it returns and the
    strings it wrote to standard error, in order. A nil slice and an
    empty one are both the empty list. *)
Record Listing : Type := mkListing {
  devices : list Device;
  stderr : list string
}.

(** The loop over the directory entries, from the state reached so far. *)
Fixpoint ListDevices_range (fs : FileSystem) (info : Info)
    (links : list string) (devs : list Device) (err : list string)
  : result Listing :=
  match links with
  | [] => Ret {| devices := devs; stderr := err |}
  | addr :: rest =>
      dev ← GetDevice fs info addr;
      match dev with
      | None =>
          ListDevices_range fs info rest devs (err ++ [msg_GetDevice addr])
      | Some d =>
          ListDevices_range fs info rest (devs ++ [d]) err
      end
  end.

Definition ListDevices (fs : FileSystem) (info : Info) : result Listing :=
  let paths := linuxpath_New (ctx info) in
  match ReadDir fs (SysBusPciDevices paths) with
  | None => Ret {| devices := []; stderr := [msg_ReadDir] |}
  | Some links => ListDevices_range fs info links [] []
  end.

(** The devices of the addresses that resolve, and the addresses for which
    [GetDevice] gives nil, both in the order of the listing. *)
Definition resolved (fs : FileSystem) (info : Info) (links : list string)
  : list Device :=
  omap (fun addr =>
          match GetDevice fs info addr with
          | Ret (Some d) => Some d
          | _ => None
          end) links.

Definition skipped (fs : FileSystem) (info : Info) (links : list string)
  : list string :=
  List.filter (fun addr =>
                 match GetDevice fs info addr with
                 | Ret None => true
                 | _ => false
                 end) links.

End Pci.

(** ** A concrete host

    The parameters of the development at one instance, and a small host
    with one graphics card, for running the definitions. *)

(** Splitting at every occurrence of a separator byte, as
    [strings.Split] does for a one-byte separator. *)
Fixpoint split_at (sep : ascii) (s : string) : list string :=
  match s with
  | EmptyString => [EmptyString]
  | String c rest =>
      if Ascii.eqb c sep then EmptyString :: split_at sep rest
      else
        match split_at sep rest with
        | [] => [String c EmptyString]
        | w :: ws => String c w :: ws
        end
  end.

(** Modelled from the spec: the address parser [AddressFromString], which
    is not in this file. It takes [domain:bus:slot.function], and
    [bus:slot.function] with the domain 0000; a string that does not split
    into these segments gives nil. *)
Definition AddressFromString_split (address : string) : ptr Address :=
  let slot_function (domain bus : string) (sf : string) :=
    match split_at "." sf with
    | [slot; function] =>
        Some {| Domain := domain; Bus := bus; Slot := slot;
                Function := function |}
    | _ => None
    end in
  match split_at ":" address with
  | [domain; bus; sf] => slot_function domain bus sf
  | [bus; sf] => slot_function "0000" bus sf
  | _ => None
  end.

Module Host.

Definition lower : string → string := fun s => s.

Definition paths : Context → Paths :=
  fun _ => {| SysBusPciDevices := "/sys/bus/pci/devices" |}.

Definition clean : string → string :=
  fun p => if String.eqb p "" then "." else p.

Definition blob : string :=
  "pci:v000010DEd00001C82sv00001043sd00008613bc03sc00i00".

(** A USB controller: the class fields have letters in them. *)
Definition blob_usb : string :=
  "pci:v00008086d0000A36Dsv00001043sd00008694bc0Csc03i30".

Definition fs : FileSystem :=
  {| files := fun p =>
       if String.eqb p "/sys/bus/pci/devices/0000:03:00.0/modalias"
       then Readable (slice_of_string blob)
       else if String.eqb p "/sys/bus/pci/devices/0000:00:14.0/modalias"
       then Readable (slice_of_string blob_usb)
       else if String.eqb p "/sys/bus/pci/devices/0000:00:1f.3/modalias"
       then ReadError
       else if String.eqb p "/sys/bus/pci/devices/0000:00:02.0/modalias"
       then Readable (slice_in_buffer "pci:" 512)
       else StatError;
     ReadDir := fun d =>
       if String.eqb d "/sys/bus/pci/devices"
       then Some ["0000:00:1f.3"; "0000:03:00.0"; "0000:00:1f.4"]
       else None |}.

Definition fs_unlisted : FileSystem :=
  {| files := files fs; ReadDir := fun _ => None |}.

(** The same short file held in a slice without spare capacity. *)
Definition fs_tight : FileSystem :=
  {| files := fun p =>
       if String.eqb p "/sys/bus/pci/devices/0000:00:02.0/modalias"
       then Readable (slice_of_string "pci:")
       else StatError;
     ReadDir := fun _ => None |}.

Definition strix : pcidb_Product :=
  {| Product_VendorID := "1043"; Product_ID := "8613";
     Product_Name := "PH-GTX1050TI-4G"; Product_Subsystems := [] |}.

Definition gp107 : pcidb_Product :=
  {| Product_VendorID := "10de"; Product_ID := "1c82";
     Product_Name := "GP107 [GeForce GTX 1050 Ti]";
     Product_Subsystems := [strix] |}.

Definition nvidia : pcidb_Vendor :=
  {| Vendor_ID := "10de"; Vendor_Name := "NVIDIA Corporation";
     Vendor_Products := [gp107] |}.

Definition asus : pcidb_Vendor :=
  {| Vendor_ID := "1043"; Vendor_Name := "ASUSTeK Computer Inc.";
     Vendor_Products := [] |}.

Definition vga_if : pcidb_ProgrammingInterface :=
  {| ProgrammingInterface_ID := "00";
     ProgrammingInterface_Name := "VGA controller" |}.

Definition vga : pcidb_Subclass :=
  {| Subclass_ID := "00"; Subclass_Name := "VGA compatible controller";
     Subclass_ProgrammingInterfaces :=
       [ vga_if;
         {| ProgrammingInterface_ID := "01";
            ProgrammingInterface_Name := "8514 controller" |} ] |}.

Definition display : pcidb_Class :=
  {| Class_ID := "03"; Class_Name := "Display controller";
     Class_Subclasses := [vga] |}.

(** What the two blobs decode to. *)
Definition modalias_gpu : deviceModaliasInfo :=
  {| vendorID := "10de"; productID := "1c82";
     subproductID := "8613"; subvendorID := "1043";
     classID := "03"; subclassID := "00"; progIfaceID := "00" |}.

Definition modalias_usb : deviceModaliasInfo :=
  {| vendorID := "8086"; productID := "a36d";
     subproductID := "8694"; subvendorID := "1043";
     classID := "0C"; subclassID := "03"; progIfaceID := "30" |}.

Definition info : Info :=
  {| ctx := {| Chroot := "/" |};
     Classes := {[ "03" := display ]};
     Vendors := {[ "10de" := nvidia; "1043" := asus ]};
     Products := {[ "10de1c82" := gp107 ]} |}.

End Host.

(** The first entry of a list with a given ID, as the specification
    words the searches: by the list library's [find]. *)
Definition linear_search {A} (ID : A → string) (id : string) (l : list A)
  : option A :=
  List.find (fun x => String.eqb (ID x) id) l.

(** Strings of bytes below 0x80, and strings with a capital letter. *)
Fixpoint all_ascii (s : string) : bool :=
  match s with
  | EmptyString => true
  | String c rest => (N_of_ascii c <? 128)%N && all_ascii rest
  end.

Fixpoint any_upper (s : string) : bool :=
  match s with
  | EmptyString => false
  | String c rest => is_upper c || any_upper rest
  end.

(** The seven byte ranges that the decoder reads. *)
Definition modalias_ranges : list (nat * nat) :=
  [(9, 13); (18, 22); (28, 32); (38, 42); (44, 46); (48, 50); (51, 53)].

(** A result of [GetDevice] with the address of the device replaced. *)
Definition readdress (address : string) (r : result (ptr Device))
  : result (ptr Device) :=
  match r with
  | Ret (Some d) =>
      Ret (Some {| Device_Address := address;
                   Device_Vendor := Device_Vendor d;
                   Device_Subsystem := Device_Subsystem d;
                   Device_Product := Device_Product d;
                   Device_Class := Device_Class d;
                   Device_Subclass := Device_Subclass d;
                   Device_ProgrammingInterface :=
                     Device_ProgrammingInterface d |})
  | _ => r
  end.

(** * Properties *)

(** ** Slices and lower-casing *)

Lemma slice_expr_Ret (s : slice) (lo hi : nat) :
  lo ≤ hi → hi ≤ cap s → slice_expr s lo hi = Ret (sub (backing s) lo hi).
Proof.
  intros Hlo Hhi. unfold slice_expr.
  by rewrite bool_decide_eq_true_2.
Qed.

Lemma slice_expr_Panic (s : slice) (lo hi : nat) :
  cap s < hi → slice_expr s lo hi = Panic.
Proof.
  intros Hhi. unfold slice_expr.
  rewrite bool_decide_eq_false_2; [done|lia].
Qed.

(** Within the length, slicing reads the bytes the slice holds. *)
Lemma sub_bytes_of (s : slice) (lo hi : nat) :
  hi ≤ len s → sub (bytes_of s) lo hi = sub (backing s) lo hi.
Proof.
  intros Hhi. unfold sub, bytes_of.
  rewrite skipn_firstn_comm, take_take. f_equal. lia.
Qed.

Lemma scan_ascii_all_ascii (s : string) (hasUpper : bool) :
  all_ascii s = true →
  scan_ascii s hasUpper = (true, hasUpper || any_upper s).
Proof.
  revert hasUpper. induction s as [|c s IH]; intros h; simpl.
  - by rewrite orb_false_r.
  - intros [Hc Hs]%andb_true_iff. apply N.ltb_lt in Hc.
    destruct (N.leb_spec 128 (N_of_ascii c)); [lia|].
    rewrite IH by done. by rewrite orb_assoc.
Qed.

Lemma map_bytes_lower_fixed (s : string) :
  any_upper s = false → map_bytes lower_byte s = s.
Proof.
  induction s as [|c s IH]; simpl; [done|].
  intros [Hc Hs]%orb_false_iff. rewrite IH by done.
  unfold lower_byte. by rewrite Hc.
Qed.

(** On an ASCII string [strings.ToLower] lower-cases byte by byte. *)
Lemma strings_ToLower_ascii (lower : string → string) (s : string) :
  all_ascii s = true → strings_ToLower lower s = map_bytes lower_byte s.
Proof.
  intros Hs. unfold strings_ToLower.
  rewrite scan_ascii_all_ascii by done. simpl.
  destruct (any_upper s) eqn:Hup; simpl; [done|].
  by rewrite map_bytes_lower_fixed.
Qed.

(** ** The search loop *)

Lemma range_return_None {A} (ID : A → string) (l : list A) (id : string) :
  range_return ID l id = None ↔ Forall (λ x, ID x ≠ id) l.
Proof.
  induction l as [|x l IH]; simpl.
  - split; [constructor | reflexivity].
  - destruct (String.eqb_spec (ID x) id) as [Heq|Hne].
    + split; [discriminate|]. intros H. inversion H; subst. contradiction.
    + rewrite IH. split.
      * intros H. by constructor.
      * intros H. by inversion H.
Qed.

Lemma range_return_first {A} (ID : A → string) (l : list A) (id : string)
    (x : A) :
  range_return ID l id = Some x ↔
  ∃ before after,
    l = before ++ x :: after ∧ ID x = id ∧ Forall (λ y, ID y ≠ id) before.
Proof.
  induction l as [|y l IH]; simpl.
  - split; [discriminate|]. intros (b & a & H & _). by destruct b.
  - destruct (String.eqb_spec (ID y) id) as [Heq|Hne].
    + split.
      * intros [= ->]. exists [], l. by repeat split.
      * intros (b & a & H & Hx & Hb). destruct b as [|z b]; simpl in H.
        -- by inversion H.
        -- inversion H; subst. inversion Hb; subst. contradiction.
    + rewrite IH. split.
      * intros (b & a & -> & Hx & Hb). exists (y :: b), a.
        repeat split; [done|]. by constructor.
      * intros (b & a & H & Hx & Hb). destruct b as [|z b]; simpl in H.
        -- inversion H; subst. contradiction.
        -- inversion H; subst. inversion Hb; subst. by exists b, a.
Qed.

Lemma range_return_linear_search {A} (ID : A → string) (l : list A)
    (id : string) :
  range_return ID l id = linear_search ID id l.
Proof.
  unfold linear_search. induction l as [|x l IH]; simpl; [done|].
  by destruct (String.eqb (ID x) id).
Qed.

(** ** Lookups *)

(** C7: a vendor ID that the vendor table does not hold resolves to a
    record with that ID, the name "unknown" and no products; an ID the
    table holds resolves to the table's record; the result is never nil. *)
Theorem findPCIVendor_spec (info : Info) (vendorID : string) :
  findPCIVendor info vendorID ≠ None ∧
  (Vendors info !! vendorID = None →
   findPCIVendor info vendorID =
     Some {| Vendor_ID := vendorID;
             Vendor_Name := "unknown";
             Vendor_Products := [] |}) ∧
  (∀ vendor, Vendors info !! vendorID = Some vendor →
   findPCIVendor info vendorID = Some vendor).
Proof.
  unfold findPCIVendor. repeat split.
  - by destruct (Vendors info !! vendorID).
  - by intros ->.
  - by intros vendor ->.
Qed.

(** C2: the subsystem lookup gives the placeholder (subvendor ID,
    subproduct ID, "unknown") when the product key is absent, when the
    subvendor key is absent, or when no subsystem of the product has the
    subproduct ID; with both keys present it gives the first subsystem of
    the product that has the subproduct ID. *)
Theorem findPCISubsystem_spec (info : Info)
    (vendorID productID subvendorID subproductID : string) :
  (Products info !! (vendorID +:+ productID) = None ∨
   Vendors info !! subvendorID = None ∨
   (∃ product,
      Products info !! (vendorID +:+ productID) = Some product ∧
      Forall (λ p, Product_ID p ≠ subproductID)
        (Product_Subsystems product)) →
   findPCISubsystem info vendorID productID subvendorID subproductID =
     Some {| Product_VendorID := subvendorID;
             Product_ID := subproductID;
             Product_Name := "unknown";
             Product_Subsystems := [] |}) ∧
  (∀ product subvendor before p after,
     Products info !! (vendorID +:+ productID) = Some product →
     Vendors info !! subvendorID = Some subvendor →
     Product_Subsystems product = before ++ p :: after →
     Forall (λ q, Product_ID q ≠ subproductID) before →
     Product_ID p = subproductID →
     findPCISubsystem info vendorID productID subvendorID subproductID =
       Some p).
Proof.
  unfold findPCISubsystem. split.
  - intros [-> | [-> | (product & -> & Hnone)]].
    + by destruct (Vendors info !! subvendorID).
    + done.
    + apply range_return_None in Hnone. rewrite Hnone.
      by destruct (Vendors info !! subvendorID).
  - intros product subvendor before p after -> -> Hl Hb Hp.
    assert (range_return Product_ID (Product_Subsystems product)
              subproductID = Some p) as ->; [|done].
    apply range_return_first. by exists before, after.
Qed.

(** The subclass lookup always gives a record. *)
Lemma findPCISubclass_is_Some (info : Info) (classID subclassID : string) :
  ∃ subclass, findPCISubclass info classID subclassID = Some subclass.
Proof.
  unfold findPCISubclass.
  destruct (Classes info !! classID) as [class|]; [|by eexists].
  destruct (range_return _ _ _); by eexists.
Qed.

(** The programming-interface lookup never dereferences nil. *)
Lemma findPCIProgrammingInterface_is_Some (info : Info)
    (classID subclassID progIfaceID : string) :
  ∃ pi, findPCIProgrammingInterface info classID subclassID progIfaceID =
          Ret (Some pi).
Proof.
  unfold findPCIProgrammingInterface.
  destruct (findPCISubclass_is_Some info classID subclassID) as [sc ->].
  simpl. destruct (range_return _ _ _); by eexists.
Qed.

(** C8: the programming-interface lookup is the linear search for the
    interface ID in the interface list of the record that the subclass
    lookup returns: it gives the first entry with that ID, and the
    placeholder (ID, "unknown") when there is none; so when the subclass
    lookup missed, it gives the placeholder. *)
Theorem findPCIProgrammingInterface_spec (info : Info)
    (classID subclassID progIfaceID : string) :
  let unknown :=
    {| ProgrammingInterface_ID := progIfaceID;
       ProgrammingInterface_Name := "unknown" |} in
  let result :=
    findPCIProgrammingInterface info classID subclassID progIfaceID in
  (∃ subclass,
     findPCISubclass info classID subclassID = Some subclass ∧
     result =
       Ret (Some (default unknown
                    (linear_search ProgrammingInterface_ID progIfaceID
                       (Subclass_ProgrammingInterfaces subclass)))) ∧
     ((∃ before pi after,
         Subclass_ProgrammingInterfaces subclass = before ++ pi :: after ∧
         Forall (λ q, ProgrammingInterface_ID q ≠ progIfaceID) before ∧
         ProgrammingInterface_ID pi = progIfaceID ∧
         result = Ret (Some pi)) ∨
      (Forall (λ q, ProgrammingInterface_ID q ≠ progIfaceID)
         (Subclass_ProgrammingInterfaces subclass) ∧
       result = Ret (Some unknown)))) ∧
  (Classes info !! classID = None ∨
   (∃ class,
      Classes info !! classID = Some class ∧
      Forall (λ sc, Subclass_ID sc ≠ subclassID) (Class_Subclasses class)) →
   result = Ret (Some unknown)).
Proof.
  intros unknown result. subst result. unfold findPCIProgrammingInterface.
  split.
  - destruct (findPCISubclass_is_Some info classID subclassID) as [sc Hsc].
    exists sc. rewrite Hsc. simpl. split; [done|].
    rewrite <- range_return_linear_search.
    destruct (range_return ProgrammingInterface_ID
                (Subclass_ProgrammingInterfaces sc) progIfaceID)
      as [pi|] eqn:Hfind.
    + split; [done|]. left.
      apply range_return_first in Hfind as (b & a & Hl & Hid & Hb).
      by exists b, pi, a.
    + split; [done|]. right. by apply range_return_None in Hfind.
  - unfold findPCISubclass.
    intros [-> | (class & -> & Hnone)]; [done|].
    apply range_return_None in Hnone. by rewrite Hnone.
Qed.

(** ** Every lookup gives a table entry or a placeholder *)

Lemma range_return_elem {A} (ID : A → string) (l : list A) (id : string)
    (x : A) :
  range_return ID l id = Some x → x ∈ l ∧ ID x = id.
Proof.
  intros (before & after & -> & Hid & _)%range_return_first.
  split; [set_solver|done].
Qed.

Lemma findPCIVendor_cases (info : Info) (vendorID : string) :
  ∃ vendor,
    findPCIVendor info vendorID = Some vendor ∧
    (Vendors info !! vendorID = Some vendor ∨
     vendor = {| Vendor_ID := vendorID;
                 Vendor_Name := "unknown";
                 Vendor_Products := [] |}).
Proof.
  unfold findPCIVendor.
  destruct (Vendors info !! vendorID) as [vendor|]; eauto.
Qed.

Lemma findPCIProduct_cases (info : Info) (vendorID productID : string) :
  ∃ product,
    findPCIProduct info vendorID productID = Some product ∧
    (Products info !! (vendorID +:+ productID) = Some product ∨
     product = {| Product_VendorID := "";
                  Product_ID := productID;
                  Product_Name := "unknown";
                  Product_Subsystems := [] |}).
Proof.
  unfold findPCIProduct.
  destruct (Products info !! (vendorID +:+ productID)) as [product|]; eauto.
Qed.

Lemma findPCISubsystem_cases (info : Info)
    (vendorID productID subvendorID subproductID : string) :
  ∃ subsystem,
    findPCISubsystem info vendorID productID subvendorID subproductID =
      Some subsystem ∧
    ((∃ parent,
        Products info !! (vendorID +:+ productID) = Some parent ∧
        is_Some (Vendors info !! subvendorID) ∧
        subsystem ∈ Product_Subsystems parent ∧
        Product_ID subsystem = subproductID) ∨
     subsystem = {| Product_VendorID := subvendorID;
                    Product_ID := subproductID;
                    Product_Name := "unknown";
                    Product_Subsystems := [] |}).
Proof.
  unfold findPCISubsystem.
  destruct (Vendors info !! subvendorID) as [subvendor|]; [|eauto].
  destruct (Products info !! (vendorID +:+ productID)) as [parent|];
    [|eauto].
  destruct (range_return _ _ _) as [p|] eqn:Hfind; [|eauto].
  apply range_return_elem in Hfind as [Hin Hid].
  exists p. split; [done|]. left. exists parent. eauto.
Qed.

Lemma findPCIClass_cases (info : Info) (classID : string) :
  ∃ class,
    findPCIClass info classID = Some class ∧
    (Classes info !! classID = Some class ∨
     class = {| Class_ID := classID;
                Class_Name := "unknown";
                Class_Subclasses := [] |}).
Proof.
  unfold findPCIClass.
  destruct (Classes info !! classID) as [class|]; eauto.
Qed.

Lemma findPCISubclass_cases (info : Info) (classID subclassID : string) :
  ∃ subclass,
    findPCISubclass info classID subclassID = Some subclass ∧
    ((∃ parent,
        Classes info !! classID = Some parent ∧
        subclass ∈ Class_Subclasses parent ∧
        Subclass_ID subclass = subclassID) ∨
     subclass = {| Subclass_ID := subclassID;
                   Subclass_Name := "unknown";
                   Subclass_ProgrammingInterfaces := [] |}).
Proof.
  unfold findPCISubclass.
  destruct (Classes info !! classID) as [parent|]; [|eauto].
  destruct (range_return _ _ _) as [sc|] eqn:Hfind; [|eauto].
  apply range_return_elem in Hfind as [Hin Hid].
  exists sc. split; [done|]. left. by exists parent.
Qed.

Lemma findPCIProgrammingInterface_cases (info : Info)
    (classID subclassID progIfaceID : string) (subclass : pcidb_Subclass) :
  findPCISubclass info classID subclassID = Some subclass →
  ∃ progIface,
    findPCIProgrammingInterface info classID subclassID progIfaceID =
      Ret (Some progIface) ∧
    ((progIface ∈ Subclass_ProgrammingInterfaces subclass ∧
      ProgrammingInterface_ID progIface = progIfaceID) ∨
     progIface = {| ProgrammingInterface_ID := progIfaceID;
                    ProgrammingInterface_Name := "unknown" |}).
Proof.
  intros Hsc. unfold findPCIProgrammingInterface. rewrite Hsc. simpl.
  destruct (range_return _ _ _) as [pi|] eqn:Hfind; [|eauto].
  apply range_return_elem in Hfind. eauto.
Qed.

(** ** The modalias decoder *)

Section DecoderProperties.

Variable lower : string → string.

(** The text of the bytes [lo], ..., [hi - 1] of a blob. *)
Local Abbreviation field data lo hi :=
  (string_of_list_byte (sub (bytes_of data) lo hi)).

(** With room for 53 bytes in the array every slice expression is in
    range, and the record is built from the array. *)
Lemma parseModaliasFile_Readable (fs : FileSystem) (fp : string)
    (data : slice) :
  files fs fp = Readable data →
  53 ≤ cap data →
  parseModaliasFile lower fs fp =
    Ret (Some
      {| vendorID :=
           strings_ToLower lower
             (string_of_list_byte (sub (backing data) 9 13));
         productID :=
           strings_ToLower lower
             (string_of_list_byte (sub (backing data) 18 22));
         subproductID :=
           strings_ToLower lower
             (string_of_list_byte (sub (backing data) 38 42));
         subvendorID :=
           strings_ToLower lower
             (string_of_list_byte (sub (backing data) 28 32));
         classID := string_of_list_byte (sub (backing data) 44 46);
         subclassID := string_of_list_byte (sub (backing data) 48 50);
         progIfaceID := string_of_list_byte (sub (backing data) 51 53) |}).
Proof.
  intros Hfile Hcap. unfold parseModaliasFile. rewrite Hfile.
  rewrite !slice_expr_Ret by lia. reflexivity.
Qed.

(** Without that room the last slice expression is out of range. *)
Lemma parseModaliasFile_Panic (fs : FileSystem) (fp : string)
    (data : slice) :
  files fs fp = Readable data →
  cap data < 53 →
  parseModaliasFile lower fs fp = Panic.
Proof.
  intros Hfile Hcap. unfold parseModaliasFile. rewrite Hfile.
  rewrite (slice_expr_Panic data 51 53) by lia.
  repeat (destruct (slice_expr data _ _); simpl; try reflexivity).
Qed.

(** A file that can be read is never answered with nil, whatever its
    length: there is no test of the length before the slicing. *)
Lemma parseModaliasFile_Readable_not_nil (fs : FileSystem) (fp : string)
    (data : slice) :
  files fs fp = Readable data →
  parseModaliasFile lower fs fp ≠ Ret None.
Proof.
  intros Hfile. destruct (decide (53 ≤ cap data)) as [Hcap|Hcap].
  - by rewrite (parseModaliasFile_Readable fs fp data).
  - by rewrite (parseModaliasFile_Panic fs fp data) by (done || lia).
Qed.

(** A file that cannot be read gives nil. *)
Lemma parseModaliasFile_unreadable (fs : FileSystem) (fp : string) :
  files fs fp = StatError ∨ files fs fp = ReadError →
  parseModaliasFile lower fs fp = Ret None.
Proof. unfold parseModaliasFile. by intros [-> | ->]. Qed.

(** A record comes only from a file that was read. *)
Lemma parseModaliasFile_Some_inv (fs : FileSystem) (fp : string)
    (m : deviceModaliasInfo) :
  parseModaliasFile lower fs fp = Ret (Some m) →
  ∃ data, files fs fp = Readable data.
Proof.
  unfold parseModaliasFile.
  destruct (files fs fp) as [| |data]; [done|done|]. by exists data.
Qed.

(** A blob of at least 53 bytes is decoded from its own bytes. *)
Lemma parseModaliasFile_fields (fs : FileSystem) (fp : string)
    (data : slice) :
  files fs fp = Readable data →
  slice_wf data →
  53 ≤ len data →
  parseModaliasFile lower fs fp =
    Ret (Some
      {| vendorID := strings_ToLower lower (field data 9 13);
         productID := strings_ToLower lower (field data 18 22);
         subproductID := strings_ToLower lower (field data 38 42);
         subvendorID := strings_ToLower lower (field data 28 32);
         classID := field data 44 46;
         subclassID := field data 48 50;
         progIfaceID := field data 51 53 |}).
Proof.
  intros Hfile Hwf Hlen. unfold slice_wf in Hwf.
  rewrite (parseModaliasFile_Readable fs fp data) by (done || lia).
  by rewrite !sub_bytes_of by lia.
Qed.

Lemma all_ascii_sub (l : list byte) (lo hi : nat) :
  all_ascii (string_of_list_byte l) = true →
  all_ascii (string_of_list_byte (sub l lo hi)) = true.
Proof.
  unfold sub. generalize (hi - lo) as n. intros n.
  revert l. induction lo as [|lo IHlo]; intros l; simpl.
  - revert l. induction n as [|n IHn]; intros [|b l]; simpl; try done.
    intros [Hb Hl]%andb_true_iff. rewrite Hb. by apply IHn.
  - destruct l as [|b l]; simpl.
    + by destruct n.
    + intros [_ Hl]%andb_true_iff. by apply IHlo.
Qed.

(** C3: a blob of at least 53 bytes decodes to the seven fields at
    [9,13), [18,22), [28,32), [38,42), [44,46), [48,50) and [51,53), the
    first four lower-cased; the blob of the source comment decodes to
    10de, 1c82, 1043, 8613, 03, 00, 00. *)
Theorem parseModaliasFile_offsets :
  (∀ (fs : FileSystem) (fp : string) (data : slice),
     files fs fp = Readable data →
     slice_wf data →
     53 ≤ len data →
     parseModaliasFile lower fs fp =
       Ret (Some
         {| vendorID := strings_ToLower lower (field data 9 13);
            productID := strings_ToLower lower (field data 18 22);
            subproductID := strings_ToLower lower (field data 38 42);
            subvendorID := strings_ToLower lower (field data 28 32);
            classID := field data 44 46;
            subclassID := field data 48 50;
            progIfaceID := field data 51 53 |})) ∧
  (∀ (fs : FileSystem) (fp : string),
     files fs fp =
       Readable
         (slice_of_string
            "pci:v000010DEd00001C82sv00001043sd00008613bc03sc00i00") →
     parseModaliasFile lower fs fp =
       Ret (Some
         {| vendorID := "10de";
            productID := "1c82";
            subproductID := "8613";
            subvendorID := "1043";
            classID := "03";
            subclassID := "00";
            progIfaceID := "00" |})).
Proof.
  split.
  - apply parseModaliasFile_fields.
  - intros fs fp Hfile.
    rewrite (parseModaliasFile_Readable fs fp _ Hfile) by (vm_compute; lia).
    vm_compute. reflexivity.
Qed.

(** C4: of the seven fields of a decoded blob, [strings.ToLower] is
    applied to the vendor, product, subvendor and subproduct IDs, which on
    ASCII text turns each capital letter into its small letter and keeps
    every other byte; the class, subclass and programming-interface IDs
    are the bytes of the blob unchanged. *)
Theorem parseModaliasFile_case (fs : FileSystem) (fp : string)
    (data : slice) (m : deviceModaliasInfo) :
  files fs fp = Readable data →
  slice_wf data →
  53 ≤ len data →
  parseModaliasFile lower fs fp = Ret (Some m) →
  (vendorID m = strings_ToLower lower (field data 9 13) ∧
   productID m = strings_ToLower lower (field data 18 22) ∧
   subvendorID m = strings_ToLower lower (field data 28 32) ∧
   subproductID m = strings_ToLower lower (field data 38 42)) ∧
  (all_ascii (string_of_list_byte (bytes_of data)) = true →
   vendorID m = map_bytes lower_byte (field data 9 13) ∧
   productID m = map_bytes lower_byte (field data 18 22) ∧
   subvendorID m = map_bytes lower_byte (field data 28 32) ∧
   subproductID m = map_bytes lower_byte (field data 38 42)) ∧
  (classID m = field data 44 46 ∧
   subclassID m = field data 48 50 ∧
   progIfaceID m = field data 51 53).
Proof.
  intros Hfile Hwf Hlen Hm.
  rewrite (parseModaliasFile_fields fs fp data) in Hm by done.
  injection Hm as <-. simpl. split; [done|]. split; [|done].
  intros Hascii.
  by rewrite !strings_ToLower_ascii by by apply all_ascii_sub.
Qed.

End DecoderProperties.

(** ** Devices *)

Section DeviceProperties.

Variable lower : string → string.
Variable AddressFromString : string → ptr Address.
Variable linuxpath_New : Context → Paths.
Variable filepath_Clean : string → string.

Local Abbreviation modaliasPath :=
  (getDeviceModaliasPath AddressFromString linuxpath_New filepath_Clean).
Local Abbreviation getDevice :=
  (GetDevice lower AddressFromString linuxpath_New filepath_Clean).
Local Abbreviation listDevices :=
  (ListDevices lower AddressFromString linuxpath_New filepath_Clean).
Local Abbreviation listRange :=
  (ListDevices_range lower AddressFromString linuxpath_New filepath_Clean).
Local Abbreviation resolvedOf :=
  (resolved lower AddressFromString linuxpath_New filepath_Clean).
Local Abbreviation skippedOf :=
  (skipped lower AddressFromString linuxpath_New filepath_Clean).

(** An address that does not parse has the empty path. *)
Lemma getDeviceModaliasPath_nil (c : Context) (address : string) :
  AddressFromString address = None → modaliasPath c address = "".
Proof. unfold getDeviceModaliasPath. by intros ->. Qed.

(** [filepath.Clean] never returns the empty string; then the path of an
    address that parses is not empty either. *)
Lemma getDeviceModaliasPath_nonempty (c : Context) (address : string)
    (pciAddr : Address) :
  (∀ p, filepath_Clean p ≠ "") →
  AddressFromString address = Some pciAddr →
  modaliasPath c address ≠ "".
Proof.
  intros Hclean Haddr. unfold getDeviceModaliasPath. rewrite Haddr.
  cbn [filepath_Join].
  change (String.eqb "modalias" "") with false.
  repeat (destruct (String.eqb _ "")); apply Hclean.
Qed.

(** [GetDevice] past its two early returns. *)
Lemma GetDevice_decoded (fs : FileSystem) (info : Info) (address : string)
    (m : deviceModaliasInfo) :
  modaliasPath (ctx info) address ≠ "" →
  parseModaliasFile lower fs (modaliasPath (ctx info) address) =
    Ret (Some m) →
  getDevice fs info address =
    (progIface ← findPCIProgrammingInterface info (classID m)
                   (subclassID m) (progIfaceID m);
     Ret (Some
       {| Device_Address := address;
          Device_Vendor := findPCIVendor info (vendorID m);
          Device_Subsystem :=
            findPCISubsystem info (vendorID m) (productID m)
              (subvendorID m) (subproductID m);
          Device_Product :=
            findPCIProduct info (vendorID m) (productID m);
          Device_Class := findPCIClass info (classID m);
          Device_Subclass :=
            findPCISubclass info (classID m) (subclassID m);
          Device_ProgrammingInterface := progIface |})).
Proof.
  intros Hfp Hm. unfold GetDevice.
  apply String.eqb_neq in Hfp. rewrite Hfp, Hm. reflexivity.
Qed.

(** A device comes only from an address that parsed and a file that was
    decoded. *)
Lemma GetDevice_Some_inv (fs : FileSystem) (info : Info) (address : string)
    (dev : Device) :
  getDevice fs info address = Ret (Some dev) →
  modaliasPath (ctx info) address ≠ "" ∧
  ∃ m, parseModaliasFile lower fs (modaliasPath (ctx info) address) =
         Ret (Some m).
Proof.
  unfold GetDevice.
  destruct (String.eqb_spec (modaliasPath (ctx info) address) "")
    as [Heq|Hne]; [done|].
  destruct (parseModaliasFile _ _ _) as [[m|]|]; [|done|done].
  intros _. split; [done|]. by exists m.
Qed.

(** C5: once the blob of an address is decoded, [GetDevice] returns a
    device whose six resolved fields all point to a record, each either
    the entry found in the tables or the placeholder with the raw ID and
    the name "unknown"; this holds for every content of the tables. *)
Theorem GetDevice_resolves (fs : FileSystem) (info : Info)
    (address : string) (m : deviceModaliasInfo) :
  modaliasPath (ctx info) address ≠ "" →
  parseModaliasFile lower fs (modaliasPath (ctx info) address) =
    Ret (Some m) →
  ∃ vendor product subsystem class subclass progIface,
    getDevice fs info address =
      Ret (Some {| Device_Address := address;
                   Device_Vendor := Some vendor;
                   Device_Subsystem := Some subsystem;
                   Device_Product := Some product;
                   Device_Class := Some class;
                   Device_Subclass := Some subclass;
                   Device_ProgrammingInterface := Some progIface |}) ∧
    (Vendors info !! vendorID m = Some vendor ∨
     vendor = {| Vendor_ID := vendorID m;
                 Vendor_Name := "unknown";
                 Vendor_Products := [] |}) ∧
    (Products info !! (vendorID m +:+ productID m) = Some product ∨
     product = {| Product_VendorID := "";
                  Product_ID := productID m;
                  Product_Name := "unknown";
                  Product_Subsystems := [] |}) ∧
    ((∃ parent,
        Products info !! (vendorID m +:+ productID m) = Some parent ∧
        is_Some (Vendors info !! subvendorID m) ∧
        subsystem ∈ Product_Subsystems parent ∧
        Product_ID subsystem = subproductID m) ∨
     subsystem = {| Product_VendorID := subvendorID m;
                    Product_ID := subproductID m;
                    Product_Name := "unknown";
                    Product_Subsystems := [] |}) ∧
    (Classes info !! classID m = Some class ∨
     class = {| Class_ID := classID m;
                Class_Name := "unknown";
                Class_Subclasses := [] |}) ∧
    ((∃ parent,
        Classes info !! classID m = Some parent ∧
        subclass ∈ Class_Subclasses parent ∧
        Subclass_ID subclass = subclassID m) ∨
     subclass = {| Subclass_ID := subclassID m;
                   Subclass_Name := "unknown";
                   Subclass_ProgrammingInterfaces := [] |}) ∧
    ((progIface ∈ Subclass_ProgrammingInterfaces subclass ∧
      ProgrammingInterface_ID progIface = progIfaceID m) ∨
     progIface = {| ProgrammingInterface_ID := progIfaceID m;
                    ProgrammingInterface_Name := "unknown" |}).
Proof.
  intros Hfp Hm. rewrite (GetDevice_decoded fs info address m) by done.
  destruct (findPCIVendor_cases info (vendorID m)) as (vendor & -> & Hv).
  destruct (findPCIProduct_cases info (vendorID m) (productID m))
    as (product & -> & Hp).
  destruct (findPCISubsystem_cases info (vendorID m) (productID m)
              (subvendorID m) (subproductID m)) as (subsystem & -> & Hs).
  destruct (findPCIClass_cases info (classID m)) as (class & -> & Hc).
  destruct (findPCISubclass_cases info (classID m) (subclassID m))
    as (subclass & Hsub & Hsc).
  destruct (findPCIProgrammingInterface_cases info (classID m)
              (subclassID m) (progIfaceID m) subclass Hsub)
    as (progIface & -> & Hpi).
  rewrite Hsub. simpl.
  by exists vendor, product, subsystem, class, subclass, progIface.
Qed.

(** C9: for an address that does not parse, and for an address whose
    modalias file is absent or cannot be read, [GetDevice] returns nil: it
    neither panics nor builds a device. *)
Theorem GetDevice_nil (fs : FileSystem) (info : Info) (address : string) :
  (AddressFromString address = None →
   getDevice fs info address = Ret None) ∧
  (files fs (modaliasPath (ctx info) address) = StatError ∨
   files fs (modaliasPath (ctx info) address) = ReadError →
   getDevice fs info address = Ret None).
Proof.
  unfold GetDevice. split.
  - intros Haddr.
    by rewrite (getDeviceModaliasPath_nil (ctx info) address Haddr).
  - intros Hfile.
    destruct (String.eqb _ ""); [done|].
    by rewrite parseModaliasFile_unreadable.
Qed.

(** C10: the device that [GetDevice] returns carries the address string it
    was given, unchanged, while the modalias file it read is the one named
    by the parsed components put back together. *)
Theorem GetDevice_Address (fs : FileSystem) (info : Info)
    (address : string) (dev : Device) :
  getDevice fs info address = Ret (Some dev) →
  Device_Address dev = address ∧
  ∃ pciAddr data,
    AddressFromString address = Some pciAddr ∧
    files fs
      (filepath_Join filepath_Clean
         [ SysBusPciDevices (linuxpath_New (ctx info));
           Domain pciAddr +:+ ":" +:+ Bus pciAddr +:+ ":" +:+
             Slot pciAddr +:+ "." +:+ Function pciAddr;
           "modalias" ]) = Readable data.
Proof.
  intros Hdev.
  destruct (GetDevice_Some_inv fs info address dev Hdev)
    as (Hfp & m & Hm).
  split.
  - rewrite (GetDevice_decoded fs info address m Hfp Hm) in Hdev.
    destruct (findPCIProgrammingInterface _ _ _ _) as [pi|]; [|done].
    simpl in Hdev. by injection Hdev as <-.
  - apply parseModaliasFile_Some_inv in Hm as [data Hdata].
    unfold getDeviceModaliasPath in Hfp, Hdata.
    destruct (AddressFromString address) as [pciAddr|]; [|done].
    by exists pciAddr, data.
Qed.

(** ** Enumeration *)

(** The loop over a prefix of addresses on none of which [GetDevice]
    panics: it goes on with the rest of the addresses, the devices of the
    prefix appended and one diagnostic for each address skipped. *)
Lemma ListDevices_range_app (fs : FileSystem) (info : Info)
    (before rest : list string) (devs : list Device) (err : list string) :
  Forall (λ addr, getDevice fs info addr ≠ Panic) before →
  listRange fs info (before ++ rest) devs err =
  listRange fs info rest
    (devs ++ resolvedOf fs info before)
    (err ++ map msg_GetDevice (skippedOf fs info before)).
Proof.
  intros Hok. revert devs err.
  induction Hok as [|addr before Haddr Hok IH]; intros devs err.
  - unfold resolved, skipped. simpl. by rewrite !app_nil_r.
  - unfold resolved, skipped in *. simpl.
    destruct (getDevice fs info addr) as [[d|]|]; [| |done]; simpl.
    + rewrite IH. by rewrite <- app_assoc.
    + rewrite IH. by rewrite <- app_assoc.
Qed.

(** C6: when the directory cannot be listed, [ListDevices] writes one
    message and returns no device, without a panic; otherwise each address
    for which [GetDevice] gives nil is left out with one diagnostic
    written for it, and the loop goes on with the addresses after it, so
    that the result holds the devices of all addresses that resolve. *)
Theorem ListDevices_spec (fs : FileSystem) (info : Info) :
  let dir := SysBusPciDevices (linuxpath_New (ctx info)) in
  (ReadDir fs dir = None →
   listDevices fs info =
     Ret {| devices := [];
            stderr := ["error: failed to read /sys/bus/pci/devices"] |}) ∧
  (∀ links,
     ReadDir fs dir = Some links →
     Forall (λ addr, getDevice fs info addr ≠ Panic) links →
     listDevices fs info =
       Ret {| devices := resolvedOf fs info links;
              stderr := map msg_GetDevice (skippedOf fs info links) |}) ∧
  (∀ before addr after,
     ReadDir fs dir = Some (before ++ addr :: after) →
     Forall (λ a, getDevice fs info a ≠ Panic) before →
     getDevice fs info addr = Ret None →
     listDevices fs info =
       listRange fs info after
         (resolvedOf fs info before)
         (map msg_GetDevice (skippedOf fs info before) ++
          [ "error: failed to get device information for PCI address "
              +:+ addr +:+ newline ])).
Proof.
  intros dir. subst dir. unfold ListDevices. repeat split.
  - by intros ->.
  - intros links -> Hok.
    rewrite <- (app_nil_r links) at 1.
    by rewrite ListDevices_range_app by done.
  - intros before addr after -> Hok Haddr.
    rewrite ListDevices_range_app by done. simpl.
    by rewrite Haddr.
Qed.

End DeviceProperties.

(** * Runs on the concrete host *)

Local Abbreviation host_parse := (parseModaliasFile Host.lower).
Local Abbreviation host_path :=
  (getDeviceModaliasPath AddressFromString_split Host.paths Host.clean).
Local Abbreviation host_GetDevice :=
  (GetDevice Host.lower AddressFromString_split Host.paths Host.clean).
Local Abbreviation host_ListDevices :=
  (ListDevices Host.lower AddressFromString_split Host.paths Host.clean).

(** C1: the decoder has no test of the length. A readable file of the four
    bytes [pci:] is not answered with nil: read into a buffer of 512 bytes
    it is decoded from the zero bytes after the file's end, and [GetDevice]
    builds a device from them; held in a slice of capacity 4 the slice
    expressions panic. *)
Theorem parseModaliasFile_short_blob :
  let nul k := string_of_list_byte (replicate k x00) in
  host_parse Host.fs "/sys/bus/pci/devices/0000:00:02.0/modalias" =
    Ret (Some {| vendorID := nul 4;
                 productID := nul 4;
                 subproductID := nul 4;
                 subvendorID := nul 4;
                 classID := nul 2;
                 subclassID := nul 2;
                 progIfaceID := nul 2 |}) ∧
  (∃ dev, host_GetDevice Host.fs Host.info "0000:00:02.0" =
            Ret (Some dev)) ∧
  host_parse Host.fs_tight "/sys/bus/pci/devices/0000:00:02.0/modalias" =
    Panic ∧
  host_GetDevice Host.fs_tight Host.info "0000:00:02.0" = Panic.
Proof.
  repeat split; try (vm_compute; reflexivity).
  eexists. vm_compute. reflexivity.
Qed.

Lemma findPCIVendor_spec_witness :
  Vendors Host.info !! "8086" = None ∧
  findPCIVendor Host.info "8086" =
    Some {| Vendor_ID := "8086";
            Vendor_Name := "unknown";
            Vendor_Products := [] |} ∧
  Vendors Host.info !! "10de" = Some Host.nvidia ∧
  findPCIVendor Host.info "10de" = Some Host.nvidia.
Proof.
  assert (Vendors Host.info !! "8086" = None) as Hmiss
    by (vm_compute; reflexivity).
  assert (Vendors Host.info !! "10de" = Some Host.nvidia) as Hhit
    by (vm_compute; reflexivity).
  split; [exact Hmiss|]. split.
  - exact (proj1 (proj2 (findPCIVendor_spec Host.info "8086")) Hmiss).
  - split; [exact Hhit|].
    exact (proj2 (proj2 (findPCIVendor_spec Host.info "10de")) _ Hhit).
Defined.

Lemma findPCISubsystem_spec_witness :
  findPCISubsystem Host.info "10de" "1c82" "8086" "8613" =
    Some {| Product_VendorID := "8086"; Product_ID := "8613";
            Product_Name := "unknown"; Product_Subsystems := [] |} ∧
  findPCISubsystem Host.info "10de" "ffff" "1043" "8613" =
    Some {| Product_VendorID := "1043"; Product_ID := "8613";
            Product_Name := "unknown"; Product_Subsystems := [] |} ∧
  findPCISubsystem Host.info "10de" "1c82" "1043" "0000" =
    Some {| Product_VendorID := "1043"; Product_ID := "0000";
            Product_Name := "unknown"; Product_Subsystems := [] |} ∧
  findPCISubsystem Host.info "10de" "1c82" "1043" "8613" = Some Host.strix.
Proof.
  split; [|split; [|split]].
  - apply (proj1 (findPCISubsystem_spec Host.info "10de" "1c82" "8086"
                    "8613")).
    right. left. vm_compute. reflexivity.
  - apply (proj1 (findPCISubsystem_spec Host.info "10de" "ffff" "1043"
                    "8613")).
    left. vm_compute. reflexivity.
  - apply (proj1 (findPCISubsystem_spec Host.info "10de" "1c82" "1043"
                    "0000")).
    right. right. exists Host.gp107. split; [vm_compute; reflexivity|].
    repeat constructor. discriminate.
  - apply (proj2 (findPCISubsystem_spec Host.info "10de" "1c82" "1043"
                    "8613") Host.gp107 Host.asus [] Host.strix []).
    + vm_compute. reflexivity.
    + vm_compute. reflexivity.
    + reflexivity.
    + constructor.
    + reflexivity.
Defined.

Lemma findPCIProgrammingInterface_spec_witness :
  findPCIProgrammingInterface Host.info "0C" "03" "30" =
    Ret (Some {| ProgrammingInterface_ID := "30";
                 ProgrammingInterface_Name := "unknown" |}) ∧
  ∃ subclass,
    findPCISubclass Host.info "03" "00" = Some subclass ∧
    findPCIProgrammingInterface Host.info "03" "00" "01" =
      Ret (Some (default
                   {| ProgrammingInterface_ID := "01";
                      ProgrammingInterface_Name := "unknown" |}
                   (linear_search ProgrammingInterface_ID "01"
                      (Subclass_ProgrammingInterfaces subclass)))).
Proof.
  split.
  - apply (proj2 (findPCIProgrammingInterface_spec Host.info "0C" "03"
                    "30")).
    left. vm_compute. reflexivity.
  - destruct (proj1 (findPCIProgrammingInterface_spec Host.info "03" "00"
                       "01")) as (subclass & Hsub & Heq & _).
    exists subclass. split; [exact Hsub | exact Heq].
Defined.

Lemma parseModaliasFile_offsets_witness :
  files Host.fs "/sys/bus/pci/devices/0000:03:00.0/modalias" =
    Readable (slice_of_string Host.blob) ∧
  slice_wf (slice_of_string Host.blob) ∧
  53 ≤ len (slice_of_string Host.blob) ∧
  host_parse Host.fs "/sys/bus/pci/devices/0000:03:00.0/modalias" =
    Ret (Some {| vendorID := "10de"; productID := "1c82";
                 subproductID := "8613"; subvendorID := "1043";
                 classID := "03"; subclassID := "00";
                 progIfaceID := "00" |}) ∧
  host_parse Host.fs "/sys/bus/pci/devices/0000:00:14.0/modalias" =
    Ret (Some {| vendorID := "8086"; productID := "a36d";
                 subproductID := "8694"; subvendorID := "1043";
                 classID := "0C"; subclassID := "03";
                 progIfaceID := "30" |}).
Proof.
  assert (files Host.fs "/sys/bus/pci/devices/0000:03:00.0/modalias" =
            Readable (slice_of_string Host.blob)) as Hfile
    by reflexivity.
  assert (slice_wf (slice_of_string Host.blob)) as Hwf
    by (vm_compute; lia).
  assert (53 ≤ len (slice_of_string Host.blob)) as Hlen
    by (vm_compute; lia).
  split; [exact Hfile|]. split; [exact Hwf|]. split; [exact Hlen|]. split.
  - exact (proj2 (parseModaliasFile_offsets Host.lower) Host.fs _ Hfile).
  - rewrite (proj1 (parseModaliasFile_offsets Host.lower) Host.fs
               "/sys/bus/pci/devices/0000:00:14.0/modalias"
               (slice_of_string Host.blob_usb)).
    + vm_compute. reflexivity.
    + reflexivity.
    + vm_compute. lia.
    + vm_compute. lia.
Defined.

Lemma parseModaliasFile_case_witness :
  host_parse Host.fs "/sys/bus/pci/devices/0000:00:14.0/modalias" =
    Ret (Some Host.modalias_usb) ∧
  productID Host.modalias_usb =
    map_bytes lower_byte
      (string_of_list_byte
         (sub (bytes_of (slice_of_string Host.blob_usb)) 18 22)) ∧
  classID Host.modalias_usb =
    string_of_list_byte
      (sub (bytes_of (slice_of_string Host.blob_usb)) 44 46).
Proof.
  pose (m := Host.modalias_usb).
  assert (host_parse Host.fs "/sys/bus/pci/devices/0000:00:14.0/modalias" =
            Ret (Some m)) as Hm by (vm_compute; reflexivity).
  split; [exact Hm|].
  destruct (parseModaliasFile_case Host.lower Host.fs
              "/sys/bus/pci/devices/0000:00:14.0/modalias"
              (slice_of_string Host.blob_usb) m)
    as (_ & Hlower & Hc & _).
  - reflexivity.
  - vm_compute. lia.
  - vm_compute. lia.
  - exact Hm.
  - split; [|exact Hc].
    apply Hlower. vm_compute. reflexivity.
Defined.

Lemma GetDevice_resolves_witness :
  host_path (ctx Host.info) "03:00.0" ≠ "" ∧
  host_parse Host.fs (host_path (ctx Host.info) "03:00.0") =
    Ret (Some Host.modalias_gpu) ∧
  ∃ vendor product subsystem class subclass progIface,
    host_GetDevice Host.fs Host.info "03:00.0" =
      Ret (Some {| Device_Address := "03:00.0";
                   Device_Vendor := Some vendor;
                   Device_Subsystem := Some subsystem;
                   Device_Product := Some product;
                   Device_Class := Some class;
                   Device_Subclass := Some subclass;
                   Device_ProgrammingInterface := Some progIface |}).
Proof.
  pose (m := Host.modalias_gpu).
  assert (host_path (ctx Host.info) "03:00.0" ≠ "") as Hfp
    by (vm_compute; discriminate).
  assert (host_parse Host.fs (host_path (ctx Host.info) "03:00.0") =
            Ret (Some m)) as Hm by (vm_compute; reflexivity).
  split; [exact Hfp|]. split; [exact Hm|].
  destruct (GetDevice_resolves Host.lower AddressFromString_split
              Host.paths Host.clean Host.fs Host.info "03:00.0" m Hfp Hm)
    as (v & p & s & c & sc & pi & Hdev & _).
  exists v, p, s, c, sc, pi. exact Hdev.
Defined.

Lemma GetDevice_nil_witness :
  AddressFromString_split "0000-03-00.0" = None ∧
  host_GetDevice Host.fs Host.info "0000-03-00.0" = Ret None ∧
  files Host.fs (host_path (ctx Host.info) "0000:00:1f.3") = ReadError ∧
  host_GetDevice Host.fs Host.info "0000:00:1f.3" = Ret None ∧
  files Host.fs (host_path (ctx Host.info) "0000:00:1f.4") = StatError ∧
  host_GetDevice Host.fs Host.info "0000:00:1f.4" = Ret None.
Proof.
  assert (AddressFromString_split "0000-03-00.0" = None) as Haddr
    by reflexivity.
  assert (files Host.fs (host_path (ctx Host.info) "0000:00:1f.3") =
            ReadError) as Hread by (vm_compute; reflexivity).
  assert (files Host.fs (host_path (ctx Host.info) "0000:00:1f.4") =
            StatError) as Hstat by (vm_compute; reflexivity).
  split; [exact Haddr|]. split.
  - exact (proj1 (GetDevice_nil Host.lower AddressFromString_split
                    Host.paths Host.clean Host.fs Host.info
                    "0000-03-00.0") Haddr).
  - split; [exact Hread|]. split.
    + exact (proj2 (GetDevice_nil Host.lower AddressFromString_split
                      Host.paths Host.clean Host.fs Host.info
                      "0000:00:1f.3") (or_intror Hread)).
    + split; [exact Hstat|].
      exact (proj2 (GetDevice_nil Host.lower AddressFromString_split
                      Host.paths Host.clean Host.fs Host.info
                      "0000:00:1f.4") (or_introl Hstat)).
Defined.

Lemma GetDevice_Address_witness :
  ∃ dev,
    host_GetDevice Host.fs Host.info "03:00.0" = Ret (Some dev) ∧
    Device_Address dev = "03:00.0" ∧
    host_path (ctx Host.info) "03:00.0" =
      "/sys/bus/pci/devices/0000:03:00.0/modalias".
Proof.
  eexists. split; [vm_compute; reflexivity|].
  split; [|vm_compute; reflexivity].
  refine (proj1 (GetDevice_Address Host.lower AddressFromString_split
                   Host.paths Host.clean Host.fs Host.info "03:00.0" _ _)).
  vm_compute. reflexivity.
Defined.

Lemma ListDevices_spec_witness :
  host_ListDevices Host.fs_unlisted Host.info =
    Ret {| devices := [];
           stderr := ["error: failed to read /sys/bus/pci/devices"] |} ∧
  (∃ dev,
     host_GetDevice Host.fs Host.info "0000:03:00.0" = Ret (Some dev) ∧
     host_ListDevices Host.fs Host.info =
       Ret {| devices := [dev];
              stderr := [ msg_GetDevice "0000:00:1f.3";
                          msg_GetDevice "0000:00:1f.4" ] |}) ∧
  host_ListDevices Host.fs Host.info =
    ListDevices_range Host.lower AddressFromString_split Host.paths
      Host.clean Host.fs Host.info ["0000:03:00.0"; "0000:00:1f.4"]
      [] [msg_GetDevice "0000:00:1f.3"].
Proof.
  pose proof (ListDevices_spec Host.lower AddressFromString_split
                Host.paths Host.clean Host.fs_unlisted Host.info)
    as (Hnone & _).
  pose proof (ListDevices_spec Host.lower AddressFromString_split
                Host.paths Host.clean Host.fs Host.info)
    as (_ & Hall & Hskip).
  split; [|split].
  - apply Hnone. reflexivity.
  - eexists. split; [vm_compute; reflexivity|].
    rewrite (Hall ["0000:00:1f.3"; "0000:03:00.0"; "0000:00:1f.4"]).
    + vm_compute. reflexivity.
    + reflexivity.
    + repeat constructor; vm_compute; discriminate.
  - apply (Hskip [] "0000:00:1f.3" ["0000:03:00.0"; "0000:00:1f.4"]).
    + reflexivity.
    + constructor.
    + vm_compute. reflexivity.
Defined.

(** * Further properties of the lookups *)

(** X1: a product key (vendor ID followed by product ID) that the product
    table does not hold resolves to a record with the product ID, the name
    "unknown", no subsystems and an empty vendor ID; a key the table holds
    resolves to the table's record; the result is never nil. *)
Theorem findPCIProduct_spec (info : Info) (vendorID productID : string) :
  findPCIProduct info vendorID productID ≠ None ∧
  (Products info !! (vendorID +:+ productID) = None →
   findPCIProduct info vendorID productID =
     Some {| Product_VendorID := "";
             Product_ID := productID;
             Product_Name := "unknown";
             Product_Subsystems := [] |}) ∧
  (∀ product, Products info !! (vendorID +:+ productID) = Some product →
   findPCIProduct info vendorID productID = Some product).
Proof.
  unfold findPCIProduct. repeat split.
  - by destruct (Products info !! (vendorID +:+ productID)).
  - by intros ->.
  - by intros product ->.
Qed.

(** X2: the product table is read at the concatenation of the two IDs, so
    two queries whose IDs concatenate to the same key that the table holds
    get the same record, and their subsystem lookups agree as well. *)
Theorem findPCIProduct_key (info : Info)
    (vendorID productID vendorID' productID' : string) :
  vendorID +:+ productID = vendorID' +:+ productID' →
  is_Some (Products info !! (vendorID +:+ productID)) →
  findPCIProduct info vendorID productID =
    findPCIProduct info vendorID' productID' ∧
  ∀ subvendorID subproductID,
    findPCISubsystem info vendorID productID subvendorID subproductID =
    findPCISubsystem info vendorID' productID' subvendorID subproductID.
Proof.
  intros Hkey [product Hp]. unfold findPCIProduct, findPCISubsystem.
  rewrite <- Hkey, Hp. done.
Qed.

(** X3: a class ID that the class table does not hold resolves to a record
    with that ID, the name "unknown" and no subclasses; an ID the table
    holds resolves to the table's record; the result is never nil. *)
Theorem findPCIClass_spec (info : Info) (classID : string) :
  findPCIClass info classID ≠ None ∧
  (Classes info !! classID = None →
   findPCIClass info classID =
     Some {| Class_ID := classID;
             Class_Name := "unknown";
             Class_Subclasses := [] |}) ∧
  (∀ class, Classes info !! classID = Some class →
   findPCIClass info classID = Some class).
Proof.
  unfold findPCIClass. repeat split.
  - by destruct (Classes info !! classID).
  - by intros ->.
  - by intros class ->.
Qed.

(** X4: the subclass lookup gives the placeholder (subclass ID, "unknown",
    no interfaces) when the class ID is absent or no subclass of the class
    has the subclass ID; otherwise it gives the first subclass of the
    class with that ID. *)
Theorem findPCISubclass_spec (info : Info) (classID subclassID : string) :
  (Classes info !! classID = None ∨
   (∃ class,
      Classes info !! classID = Some class ∧
      Forall (λ sc, Subclass_ID sc ≠ subclassID) (Class_Subclasses class)) →
   findPCISubclass info classID subclassID =
     Some {| Subclass_ID := subclassID;
             Subclass_Name := "unknown";
             Subclass_ProgrammingInterfaces := [] |}) ∧
  (∀ class before sc after,
     Classes info !! classID = Some class →
     Class_Subclasses class = before ++ sc :: after →
     Forall (λ q, Subclass_ID q ≠ subclassID) before →
     Subclass_ID sc = subclassID →
     findPCISubclass info classID subclassID = Some sc).
Proof.
  unfold findPCISubclass. split.
  - intros [-> | (class & -> & Hnone)]; [done|].
    apply range_return_None in Hnone. by rewrite Hnone.
  - intros class before sc after -> Hl Hb Hid.
    assert (range_return Subclass_ID (Class_Subclasses class) subclassID =
              Some sc) as ->; [|done].
    apply range_return_first. by exists before, after.
Qed.

(** X5: the subclass lookup is the linear search for the subclass ID in
    the subclass list of the record that the class lookup returns, with
    the placeholder for a miss. *)
Theorem findPCISubclass_via_findPCIClass (info : Info)
    (classID subclassID : string) :
  ∃ class,
    findPCIClass info classID = Some class ∧
    findPCISubclass info classID subclassID =
      Some (default
              {| Subclass_ID := subclassID;
                 Subclass_Name := "unknown";
                 Subclass_ProgrammingInterfaces := [] |}
              (linear_search Subclass_ID subclassID
                 (Class_Subclasses class))).
Proof.
  unfold findPCIClass, findPCISubclass.
  destruct (Classes info !! classID) as [class|].
  - exists class. split; [done|].
    rewrite <- range_return_linear_search.
    by destruct (range_return _ _ _).
  - eexists. split; [done|]. done.
Qed.

(** X6: the subsystem lookup is, when the subvendor ID is in the vendor
    table, the linear search for the subproduct ID in the subsystem list
    of the record that the product lookup returns, and the placeholder
    otherwise; so a product that is not in the table has no subsystem but
    the placeholder. *)
Theorem findPCISubsystem_via_findPCIProduct (info : Info)
    (vendorID productID subvendorID subproductID : string) :
  let unknown :=
    {| Product_VendorID := subvendorID;
       Product_ID := subproductID;
       Product_Name := "unknown";
       Product_Subsystems := [] |} in
  ∃ product,
    findPCIProduct info vendorID productID = Some product ∧
    findPCISubsystem info vendorID productID subvendorID subproductID =
      Some (match Vendors info !! subvendorID with
            | Some _ =>
                default unknown
                  (linear_search Product_ID subproductID
                     (Product_Subsystems product))
            | None => unknown
            end).
Proof.
  intros unknown. unfold findPCIProduct, findPCISubsystem.
  destruct (Products info !! (vendorID +:+ productID)) as [product|].
  - exists product. split; [done|].
    destruct (Vendors info !! subvendorID); [|done].
    rewrite <- range_return_linear_search.
    by destruct (range_return _ _ _).
  - eexists. split; [done|].
    by destruct (Vendors info !! subvendorID).
Qed.

(** X7: the three lookups that search a list return a record whose ID is
    the ID that was asked for, be it an entry of the list or the
    placeholder. *)
Theorem list_lookups_return_queried_ID (info : Info)
    (vendorID productID subvendorID subproductID : string)
    (classID subclassID progIfaceID : string) :
  (∃ subsystem,
     findPCISubsystem info vendorID productID subvendorID subproductID =
       Some subsystem ∧
     Product_ID subsystem = subproductID) ∧
  (∃ subclass,
     findPCISubclass info classID subclassID = Some subclass ∧
     Subclass_ID subclass = subclassID) ∧
  (∃ progIface,
     findPCIProgrammingInterface info classID subclassID progIfaceID =
       Ret (Some progIface) ∧
     ProgrammingInterface_ID progIface = progIfaceID).
Proof.
  split; [|split].
  - destruct (findPCISubsystem_cases info vendorID productID subvendorID
                subproductID) as (s & Hs & [(parent & _ & _ & _ & Hid) | ->]);
      exists s || eexists; eauto.
  - destruct (findPCISubclass_cases info classID subclassID)
      as (sc & Hsc & [(parent & _ & _ & Hid) | ->]);
      exists sc || eexists; eauto.
  - destruct (findPCISubclass_cases info classID subclassID)
      as (sc & Hsc & _).
    destruct (findPCIProgrammingInterface_cases info classID subclassID
                progIfaceID sc Hsc) as (pi & Hpi & [[_ Hid] | ->]);
      exists pi || eexists; eauto.
Qed.

(** * Further properties of the decoder *)

Lemma length_sub {A} (l : list A) (lo hi : nat) :
  hi ≤ length l → length (sub l lo hi) = hi - lo.
Proof.
  intros Hhi. unfold sub. rewrite length_take, length_drop. lia.
Qed.

Lemma length_string_of_list_byte (l : list byte) :
  String.length (string_of_list_byte l) = length l.
Proof. induction l as [|b l IH]; simpl; [done|]. by f_equal. Qed.

Lemma length_map_bytes (f : ascii → ascii) (s : string) :
  String.length (map_bytes f s) = String.length s.
Proof. induction s as [|c s IH]; simpl; [done|]. by f_equal. Qed.

Lemma is_upper_lower_byte (c : ascii) : is_upper (lower_byte c) = false.
Proof.
  unfold lower_byte. destruct (is_upper c) eqn:Hc; [|done].
  unfold is_upper in *.
  apply andb_true_iff in Hc as [Hlo%N.leb_le Hhi%N.leb_le].
  rewrite N_ascii_embedding by lia.
  apply andb_false_iff. right. apply N.leb_gt. lia.
Qed.

Lemma any_upper_map_lower (s : string) :
  any_upper (map_bytes lower_byte s) = false.
Proof.
  induction s as [|c s IH]; simpl; [done|].
  by rewrite is_upper_lower_byte, IH.
Qed.

Section DecoderMore.

Variable lower : string → string.

Local Abbreviation text l lo hi := (string_of_list_byte (sub l lo hi)).

(** X8: the decoder tells exactly three cases apart. It returns nil when
    the file cannot be found or read, and only then; it panics when the
    file is read into a slice of capacity below 53, and only then; it
    returns a record when the capacity is 53 or more, and only then. *)
Theorem parseModaliasFile_outcomes (fs : FileSystem) (fp : string) :
  (parseModaliasFile lower fs fp = Ret None ↔
   files fs fp = StatError ∨ files fs fp = ReadError) ∧
  (parseModaliasFile lower fs fp = Panic ↔
   ∃ data, files fs fp = Readable data ∧ cap data < 53) ∧
  ((∃ m, parseModaliasFile lower fs fp = Ret (Some m)) ↔
   ∃ data, files fs fp = Readable data ∧ 53 ≤ cap data).
Proof.
  destruct (files fs fp) as [| |data] eqn:Hfile.
  - rewrite (parseModaliasFile_unreadable lower fs fp) by eauto.
    repeat split; try done; try eauto.
    + by intros (d & ? & _).
    + by intros (m & ?).
    + by intros (d & ? & _).
  - rewrite (parseModaliasFile_unreadable lower fs fp) by eauto.
    repeat split; try done; try eauto.
    + by intros (d & ? & _).
    + by intros (m & ?).
    + by intros (d & ? & _).
  - destruct (decide (53 ≤ cap data)) as [Hcap|Hcap].
    + rewrite (parseModaliasFile_Readable lower fs fp data) by done.
      repeat split; try done.
      * by intros [? | ?].
      * intros (d & [= <-] & ?). lia.
      * intros _. by exists data.
      * intros _. by eexists.
    + rewrite (parseModaliasFile_Panic lower fs fp data) by (done || lia).
      repeat split; try done.
      * by intros [? | ?].
      * intros _. exists data. split; [done|lia].
      * by intros (m & ?).
      * intros (d & [= <-] & ?). lia.
Qed.

(** X9: nothing but the seven byte ranges is looked at: two blobs of at
    least 53 bytes that agree on these ranges decode to the same record,
    whatever their other bytes are (the [pci:] prefix, the field tags, the
    upper four digits of the 8-digit IDs, anything after byte 53). *)
Theorem parseModaliasFile_ranges_only (fs fs' : FileSystem)
    (fp fp' : string) (data data' : slice) :
  files fs fp = Readable data →
  files fs' fp' = Readable data' →
  slice_wf data → slice_wf data' →
  53 ≤ len data → 53 ≤ len data' →
  Forall (λ r, sub (bytes_of data) r.1 r.2 = sub (bytes_of data') r.1 r.2)
    modalias_ranges →
  parseModaliasFile lower fs fp = parseModaliasFile lower fs' fp'.
Proof.
  intros Hf Hf' Hwf Hwf' Hlen Hlen' Hagree.
  rewrite (parseModaliasFile_fields lower fs fp data) by done.
  rewrite (parseModaliasFile_fields lower fs' fp' data') by done.
  unfold modalias_ranges in Hagree.
  repeat match goal with
    | H : Forall _ (_ :: _) |- _ =>
        apply Forall_cons in H as [? H]; simpl in *
    end.
  by repeat match goal with
    | H : sub (bytes_of data) _ _ = _ |- _ => rewrite H; clear H
    end.
Qed.

(** X10: every record the decoder returns has class, subclass and
    programming-interface IDs of exactly two bytes; when the bytes read
    are ASCII the four other IDs have exactly four bytes. *)
Theorem parseModaliasFile_lengths (fs : FileSystem) (fp : string)
    (data : slice) (m : deviceModaliasInfo) :
  files fs fp = Readable data →
  parseModaliasFile lower fs fp = Ret (Some m) →
  (String.length (classID m) = 2 ∧
   String.length (subclassID m) = 2 ∧
   String.length (progIfaceID m) = 2) ∧
  (all_ascii (string_of_list_byte (backing data)) = true →
   String.length (vendorID m) = 4 ∧
   String.length (productID m) = 4 ∧
   String.length (subvendorID m) = 4 ∧
   String.length (subproductID m) = 4).
Proof.
  intros Hfile Hm.
  assert (53 ≤ cap data) as Hcap.
  { destruct (decide (53 ≤ cap data)) as [|Hn]; [done|].
    rewrite (parseModaliasFile_Panic lower fs fp data) in Hm
      by (done || lia). done. }
  rewrite (parseModaliasFile_Readable lower fs fp data) in Hm by done.
  injection Hm as <-. simpl. unfold cap in Hcap. split.
  - by rewrite !length_string_of_list_byte, !length_sub by lia.
  - intros Hascii.
    rewrite !strings_ToLower_ascii by by apply all_ascii_sub.
    by rewrite !length_map_bytes, !length_string_of_list_byte,
      !length_sub by lia.
Qed.

(** X11: when the bytes read are ASCII, the vendor, product, subvendor and
    subproduct IDs of the record hold no capital letter. *)
Theorem parseModaliasFile_no_capitals (fs : FileSystem) (fp : string)
    (data : slice) (m : deviceModaliasInfo) :
  files fs fp = Readable data →
  all_ascii (string_of_list_byte (backing data)) = true →
  parseModaliasFile lower fs fp = Ret (Some m) →
  any_upper (vendorID m) = false ∧
  any_upper (productID m) = false ∧
  any_upper (subvendorID m) = false ∧
  any_upper (subproductID m) = false.
Proof.
  intros Hfile Hascii Hm.
  assert (53 ≤ cap data) as Hcap.
  { destruct (decide (53 ≤ cap data)) as [|Hn]; [done|].
    rewrite (parseModaliasFile_Panic lower fs fp data) in Hm
      by (done || lia). done. }
  rewrite (parseModaliasFile_Readable lower fs fp data) in Hm by done.
  injection Hm as <-. simpl.
  rewrite !strings_ToLower_ascii by by apply all_ascii_sub.
  by rewrite !any_upper_map_lower.
Qed.

End DecoderMore.

(** * Further properties of devices and of the enumeration *)

Section DeviceMore.

Variable lower : string → string.
Variable AddressFromString : string → ptr Address.
Variable linuxpath_New : Context → Paths.
Variable filepath_Clean : string → string.

Local Abbreviation modaliasPath :=
  (getDeviceModaliasPath AddressFromString linuxpath_New filepath_Clean).
Local Abbreviation getDevice :=
  (GetDevice lower AddressFromString linuxpath_New filepath_Clean).
Local Abbreviation listDevices :=
  (ListDevices lower AddressFromString linuxpath_New filepath_Clean).
Local Abbreviation listRange :=
  (ListDevices_range lower AddressFromString linuxpath_New filepath_Clean).
Local Abbreviation resolvedOf :=
  (resolved lower AddressFromString linuxpath_New filepath_Clean).
Local Abbreviation skippedOf :=
  (skipped lower AddressFromString linuxpath_New filepath_Clean).

(** Whether [GetDevice] gives a device for an address. *)
Local Abbreviation resolves fs info :=
  (fun addr : string =>
     match getDevice fs info addr with
     | Ret (Some _) => true
     | _ => false
     end).

(** X12: given that [filepath.Clean] never returns the empty string, the
    modalias path of an address is empty exactly when the address does not
    parse. *)
Theorem getDeviceModaliasPath_empty_iff (c : Context) (address : string) :
  (∀ p, filepath_Clean p ≠ "") →
  modaliasPath c address = "" ↔ AddressFromString address = None.
Proof.
  intros Hclean. split.
  - intros Hpath.
    destruct (AddressFromString address) as [pciAddr|] eqn:Haddr; [|done].
    by destruct (getDeviceModaliasPath_nonempty AddressFromString
                   linuxpath_New filepath_Clean c address pciAddr).
  - apply getDeviceModaliasPath_nil.
Qed.

Lemma GetDevice_empty_path (fs : FileSystem) (info : Info)
    (address : string) :
  modaliasPath (ctx info) address = "" →
  getDevice fs info address = Ret None.
Proof. intros Hfp. unfold GetDevice. by rewrite Hfp. Qed.

Lemma GetDevice_decoded_Some (fs : FileSystem) (info : Info)
    (address : string) (m : deviceModaliasInfo) :
  modaliasPath (ctx info) address ≠ "" →
  parseModaliasFile lower fs (modaliasPath (ctx info) address) =
    Ret (Some m) →
  ∃ dev, getDevice fs info address = Ret (Some dev).
Proof.
  intros Hfp Hm.
  rewrite (GetDevice_decoded lower AddressFromString linuxpath_New
             filepath_Clean fs info address m Hfp Hm).
  destruct (findPCIProgrammingInterface_is_Some info (classID m)
              (subclassID m) (progIfaceID m)) as [pi ->].
  simpl. by eexists.
Qed.

Lemma GetDevice_Some_Address (fs : FileSystem) (info : Info)
    (address : string) (dev : Device) :
  getDevice fs info address = Ret (Some dev) →
  Device_Address dev = address.
Proof.
  intros Hdev.
  destruct (GetDevice_Some_inv lower AddressFromString linuxpath_New
              filepath_Clean fs info address dev Hdev) as (Hfp & m & Hm).
  rewrite (GetDevice_decoded lower AddressFromString linuxpath_New
             filepath_Clean fs info address m Hfp Hm) in Hdev.
  destruct (findPCIProgrammingInterface _ _ _ _) as [pi|]; [|done].
  simpl in Hdev. by injection Hdev as <-.
Qed.

(** X13: [GetDevice] returns nil exactly when the address has no path or
    its modalias file cannot be found or read; it panics exactly when the
    file is read into a slice of capacity below 53; it returns a device
    exactly when the file is read into a slice of capacity 53 or more.
    The tables play no part in which of the three happens. *)
Theorem GetDevice_outcomes (fs : FileSystem) (info : Info)
    (address : string) :
  let fp := modaliasPath (ctx info) address in
  (getDevice fs info address = Ret None ↔
   fp = "" ∨ files fs fp = StatError ∨ files fs fp = ReadError) ∧
  (getDevice fs info address = Panic ↔
   fp ≠ "" ∧ ∃ data, files fs fp = Readable data ∧ cap data < 53) ∧
  ((∃ dev, getDevice fs info address = Ret (Some dev)) ↔
   fp ≠ "" ∧ ∃ data, files fs fp = Readable data ∧ 53 ≤ cap data).
Proof.
  intros fp.
  destruct (decide (fp = "")) as [Hfp|Hfp].
  { rewrite (GetDevice_empty_path fs info address Hfp). naive_solver. }
  destruct (files fs fp) as [| |data] eqn:Hfile.
  1, 2: assert (getDevice fs info address = Ret None) as ->
      by (unfold GetDevice; fold fp;
          apply String.eqb_neq in Hfp; rewrite Hfp;
          by rewrite parseModaliasFile_unreadable by eauto).
  1, 2: naive_solver.
  destruct (decide (53 ≤ cap data)) as [Hcap|Hcap].
  - destruct (GetDevice_decoded_Some fs info address _ Hfp
                (parseModaliasFile_Readable lower fs fp data Hfile Hcap))
      as [dev Hdev].
    rewrite Hdev. naive_solver lia.
  - assert (getDevice fs info address = Panic) as ->.
    { unfold GetDevice. fold fp. apply String.eqb_neq in Hfp.
      rewrite Hfp.
      by rewrite (parseModaliasFile_Panic lower fs fp data)
        by (done || lia). }
    split; [naive_solver|]. split.
    + split; [|done]. intros _. split; [done|].
      exists data. split; [done|lia].
    + naive_solver lia.
Qed.

(** X14: [GetDevice] depends on the spelling of the address only through
    what the address parses to: for two strings with the same parse it
    gives the same outcome and, if a device, the same six resolved fields;
    only the address field differs, being the string given. *)
Theorem GetDevice_same_parse (fs : FileSystem) (info : Info)
    (address address' : string) :
  AddressFromString address = AddressFromString address' →
  getDevice fs info address' = readdress address' (getDevice fs info address).
Proof.
  intros Haddr. unfold GetDevice, getDeviceModaliasPath.
  rewrite Haddr.
  destruct (String.eqb _ ""); [done|].
  destruct (parseModaliasFile _ _ _) as [[m|]|]; [|done|done].
  simpl. destruct (findPCIProgrammingInterface _ _ _ _) as [pi|]; done.
Qed.

(** X15: a decoded blob whose class ID is not in the class table gives a
    device whose class, subclass and programming interface are all three
    placeholders. *)
Theorem GetDevice_class_miss (fs : FileSystem) (info : Info)
    (address : string) (m : deviceModaliasInfo) :
  modaliasPath (ctx info) address ≠ "" →
  parseModaliasFile lower fs (modaliasPath (ctx info) address) =
    Ret (Some m) →
  Classes info !! classID m = None →
  ∃ dev,
    getDevice fs info address = Ret (Some dev) ∧
    Device_Class dev =
      Some {| Class_ID := classID m;
              Class_Name := "unknown";
              Class_Subclasses := [] |} ∧
    Device_Subclass dev =
      Some {| Subclass_ID := subclassID m;
              Subclass_Name := "unknown";
              Subclass_ProgrammingInterfaces := [] |} ∧
    Device_ProgrammingInterface dev =
      Some {| ProgrammingInterface_ID := progIfaceID m;
              ProgrammingInterface_Name := "unknown" |}.
Proof.
  intros Hfp Hm Hmiss.
  rewrite (GetDevice_decoded lower AddressFromString linuxpath_New
             filepath_Clean fs info address m Hfp Hm).
  unfold findPCIProgrammingInterface, findPCISubclass, findPCIClass.
  rewrite Hmiss. simpl. eexists. by split.
Qed.

Lemma any_upper_key_absent {V} (table : gmap string V) (key : string) :
  (∀ k v, table !! k = Some v → any_upper k = false) →
  any_upper key = true →
  table !! key = None.
Proof.
  intros Hkeys Hup. destruct (table !! key) as [v|] eqn:Hv; [|done].
  apply Hkeys in Hv. congruence.
Qed.

(** X16: the class ID is looked up as it stands in the blob. When the keys
    of the class table hold no capital letter, a blob of at least 53 bytes
    whose class ID at [44,46) holds one gives a device with a placeholder
    class carrying those two bytes. *)
Theorem GetDevice_capital_class (fs : FileSystem) (info : Info)
    (address : string) (data : slice) :
  modaliasPath (ctx info) address ≠ "" →
  files fs (modaliasPath (ctx info) address) = Readable data →
  slice_wf data →
  53 ≤ len data →
  (∀ k class, Classes info !! k = Some class → any_upper k = false) →
  any_upper (string_of_list_byte (sub (bytes_of data) 44 46)) = true →
  ∃ dev,
    getDevice fs info address = Ret (Some dev) ∧
    Device_Class dev =
      Some {| Class_ID := string_of_list_byte (sub (bytes_of data) 44 46);
              Class_Name := "unknown";
              Class_Subclasses := [] |}.
Proof.
  intros Hfp Hfile Hwf Hlen Hkeys Hup.
  pose proof (parseModaliasFile_fields lower fs _ data Hfile Hwf Hlen)
    as Hm.
  rewrite (GetDevice_decoded lower AddressFromString linuxpath_New
             filepath_Clean fs info address _ Hfp Hm).
  destruct (findPCIProgrammingInterface_is_Some info
              (string_of_list_byte (sub (bytes_of data) 44 46))
              (string_of_list_byte (sub (bytes_of data) 48 50))
              (string_of_list_byte (sub (bytes_of data) 51 53)))
    as [pi Hpi].
  cbn [classID subclassID progIfaceID]. rewrite Hpi. simpl.
  eexists. split; [done|]. simpl. unfold findPCIClass.
  by rewrite (any_upper_key_absent (Classes info) _ Hkeys Hup).
Qed.

End DeviceMore.

Section EnumerationMore.

Variable lower : string → string.
Variable AddressFromString : string → ptr Address.
Variable linuxpath_New : Context → Paths.
Variable filepath_Clean : string → string.

Local Abbreviation getDevice :=
  (GetDevice lower AddressFromString linuxpath_New filepath_Clean).
Local Abbreviation listDevices :=
  (ListDevices lower AddressFromString linuxpath_New filepath_Clean).
Local Abbreviation listRange :=
  (ListDevices_range lower AddressFromString linuxpath_New filepath_Clean).
Local Abbreviation resolvedOf :=
  (resolved lower AddressFromString linuxpath_New filepath_Clean).
Local Abbreviation skippedOf :=
  (skipped lower AddressFromString linuxpath_New filepath_Clean).

(** The loop panics exactly when [GetDevice] panics on one of the
    addresses. *)
Lemma ListDevices_range_Panic (fs : FileSystem) (info : Info)
    (links : list string) (devs : list Device) (err : list string) :
  listRange fs info links devs err = Panic ↔
  Exists (λ addr, getDevice fs info addr = Panic) links.
Proof.
  revert devs err. induction links as [|addr links IH]; intros devs err.
  - simpl. split; [done|]. by intros ?%Exists_nil.
  - rewrite Exists_cons. simpl.
    destruct (getDevice fs info addr) as [[d|]|]; simpl.
    + rewrite IH. naive_solver.
    + rewrite IH. naive_solver.
    + naive_solver.
Qed.

Lemma ListDevices_range_Ret (fs : FileSystem) (info : Info)
    (links : list string) (devs : list Device) (err : list string)
    (l : Listing) :
  listRange fs info links devs err = Ret l →
  l = {| devices := devs ++ resolvedOf fs info links;
         stderr := err ++ map msg_GetDevice (skippedOf fs info links) |}.
Proof.
  intros Hl.
  assert (Forall (λ addr, getDevice fs info addr ≠ Panic) links) as Hok.
  { apply Forall_forall. intros addr Hin Hpanic.
    assert (listRange fs info links devs err = Panic) as Hp.
    { apply ListDevices_range_Panic. apply Exists_exists. eauto. }
    congruence. }
  rewrite <- (app_nil_r links) in Hl at 1.
  rewrite (ListDevices_range_app lower AddressFromString linuxpath_New
             filepath_Clean fs info links [] devs err Hok) in Hl.
  simpl in Hl. by injection Hl as <-.
Qed.

Lemma resolved_skipped_length (fs : FileSystem) (info : Info)
    (links : list string) :
  Forall (λ addr, getDevice fs info addr ≠ Panic) links →
  length (resolvedOf fs info links) + length (skippedOf fs info links) =
    length links.
Proof.
  unfold resolved, skipped.
  induction 1 as [|addr links Haddr Hok IH]; [done|].
  cbn [omap list_omap List.filter].
  destruct (getDevice fs info addr) as [[d|]|];
    cbn [length]; [lia|lia|done].
Qed.

Lemma resolved_addresses (fs : FileSystem) (info : Info)
    (links : list string) :
  map Device_Address (resolvedOf fs info links) =
  List.filter (fun addr =>
                 match getDevice fs info addr with
                 | Ret (Some _) => true
                 | _ => false
                 end) links.
Proof.
  unfold resolved. induction links as [|addr links IH]; [done|].
  cbn [omap list_omap List.filter].
  destruct (getDevice fs info addr) as [[d|]|] eqn:Hd; [|done|done].
  cbn [map]. rewrite IH. f_equal.
  by apply (GetDevice_Some_Address lower AddressFromString linuxpath_New
              filepath_Clean fs info).
Qed.

(** X17: when [ListDevices] returns after listing the directory, every
    entry of the directory is accounted for once: the number of devices
    returned and the number of diagnostics written add up to the number of
    entries. *)
Theorem ListDevices_accounts (fs : FileSystem) (info : Info)
    (links : list string) (l : Listing) :
  ReadDir fs (SysBusPciDevices (linuxpath_New (ctx info))) = Some links →
  listDevices fs info = Ret l →
  length (devices l) + length (stderr l) = length links.
Proof.
  intros Hdir Hl. unfold ListDevices in Hl. rewrite Hdir in Hl.
  assert (Forall (λ addr, getDevice fs info addr ≠ Panic) links) as Hok.
  { apply Forall_forall. intros addr Hin Hpanic.
    assert (listRange fs info links [] [] = Panic) as Hp.
    { apply ListDevices_range_Panic. apply Exists_exists. eauto. }
    congruence. }
  apply ListDevices_range_Ret in Hl as ->. simpl.
  rewrite length_map. by apply resolved_skipped_length.
Qed.

(** X18: the devices that [ListDevices] returns come in the order of the
    directory, and the address of each is the name of its entry: their
    addresses are the entries for which [GetDevice] gives a device, in
    order, and the diagnostics name the other entries, in order. *)
Theorem ListDevices_addresses (fs : FileSystem) (info : Info)
    (links : list string) (l : Listing) :
  ReadDir fs (SysBusPciDevices (linuxpath_New (ctx info))) = Some links →
  listDevices fs info = Ret l →
  map Device_Address (devices l) =
    List.filter (fun addr =>
                   match getDevice fs info addr with
                   | Ret (Some _) => true
                   | _ => false
                   end) links ∧
  stderr l =
    map msg_GetDevice
      (List.filter (fun addr =>
                      match getDevice fs info addr with
                      | Ret None => true
                      | _ => false
                      end) links).
Proof.
  intros Hdir Hl. unfold ListDevices in Hl. rewrite Hdir in Hl.
  apply ListDevices_range_Ret in Hl as ->. simpl.
  split; [apply resolved_addresses | done].
Qed.

(** X19: [ListDevices] panics exactly when the directory can be listed
    and [GetDevice] panics on one of its entries; the devices resolved
    before that entry are then lost with it. A directory that cannot be
    listed never makes it panic. *)
Theorem ListDevices_Panic_iff (fs : FileSystem) (info : Info) :
  listDevices fs info = Panic ↔
  ∃ links,
    ReadDir fs (SysBusPciDevices (linuxpath_New (ctx info))) = Some links ∧
    Exists (λ addr, getDevice fs info addr = Panic) links.
Proof.
  unfold ListDevices.
  destruct (ReadDir fs _) as [links|].
  - rewrite ListDevices_range_Panic. naive_solver.
  - naive_solver.
Qed.

(** X20: when every modalias file that can be read is read into a slice of
    capacity 53 or more, neither [GetDevice] nor [ListDevices] panics,
    whatever the tables, the addresses and the directory hold. *)
Theorem no_Panic_with_capacity (fs : FileSystem) (info : Info) :
  (∀ fp data, files fs fp = Readable data → 53 ≤ cap data) →
  (∀ address, getDevice fs info address ≠ Panic) ∧
  listDevices fs info ≠ Panic.
Proof.
  intros Hcap.
  assert (∀ address, getDevice fs info address ≠ Panic) as Hget.
  { intros address. unfold GetDevice.
    destruct (String.eqb _ ""); [done|].
    destruct (files fs (getDeviceModaliasPath AddressFromString
                          linuxpath_New filepath_Clean (ctx info) address))
      as [| |data] eqn:Hfile.
    - by rewrite parseModaliasFile_unreadable by eauto.
    - by rewrite parseModaliasFile_unreadable by eauto.
    - rewrite (parseModaliasFile_Readable lower fs _ data Hfile)
        by by eapply Hcap.
      cbn [mbind result_bind classID subclassID progIfaceID].
      match goal with
      | |- context [findPCIProgrammingInterface ?i ?c ?s ?p] =>
          destruct (findPCIProgrammingInterface_is_Some i c s p) as [pi ->]
      end.
      done. }
  split; [done|]. unfold ListDevices.
  destruct (ReadDir fs _) as [links|]; [|done].
  intros Hex%ListDevices_range_Panic.
  apply Exists_exists in Hex as (addr & _ & Hp). by apply (Hget addr).
Qed.

End EnumerationMore.

(** * Further runs on the concrete host *)

Lemma findPCIProduct_spec_witness :
  Products Host.info !! ("8086" +:+ "a36d") = None ∧
  findPCIProduct Host.info "8086" "a36d" =
    Some {| Product_VendorID := ""; Product_ID := "a36d";
            Product_Name := "unknown"; Product_Subsystems := [] |} ∧
  Products Host.info !! ("10de" +:+ "1c82") = Some Host.gp107 ∧
  findPCIProduct Host.info "10de" "1c82" = Some Host.gp107.
Proof.
  assert (Products Host.info !! ("8086" +:+ "a36d") = None) as Hmiss
    by (vm_compute; reflexivity).
  assert (Products Host.info !! ("10de" +:+ "1c82") = Some Host.gp107)
    as Hhit by (vm_compute; reflexivity).
  split; [exact Hmiss|]. split.
  - exact (proj1 (proj2 (findPCIProduct_spec Host.info "8086" "a36d"))
             Hmiss).
  - split; [exact Hhit|].
    exact (proj2 (proj2 (findPCIProduct_spec Host.info "10de" "1c82"))
             _ Hhit).
Defined.

Lemma findPCIProduct_key_witness :
  "10de1" +:+ "c82" = "10de" +:+ "1c82" ∧
  is_Some (Products Host.info !! ("10de1" +:+ "c82")) ∧
  findPCIProduct Host.info "10de1" "c82" =
    findPCIProduct Host.info "10de" "1c82".
Proof.
  assert ("10de1" +:+ "c82" = "10de" +:+ "1c82") as Hkey by reflexivity.
  assert (is_Some (Products Host.info !! ("10de1" +:+ "c82"))) as Hin
    by (exists Host.gp107; vm_compute; reflexivity).
  split; [exact Hkey|]. split; [exact Hin|].
  exact (proj1 (findPCIProduct_key Host.info "10de1" "c82" "10de" "1c82"
                  Hkey Hin)).
Defined.

Lemma findPCIClass_spec_witness :
  Classes Host.info !! "0C" = None ∧
  findPCIClass Host.info "0C" =
    Some {| Class_ID := "0C"; Class_Name := "unknown";
            Class_Subclasses := [] |} ∧
  Classes Host.info !! "03" = Some Host.display ∧
  findPCIClass Host.info "03" = Some Host.display.
Proof.
  assert (Classes Host.info !! "0C" = None) as Hmiss
    by (vm_compute; reflexivity).
  assert (Classes Host.info !! "03" = Some Host.display) as Hhit
    by (vm_compute; reflexivity).
  split; [exact Hmiss|]. split.
  - exact (proj1 (proj2 (findPCIClass_spec Host.info "0C")) Hmiss).
  - split; [exact Hhit|].
    exact (proj2 (proj2 (findPCIClass_spec Host.info "03")) _ Hhit).
Defined.

Lemma findPCISubclass_spec_witness :
  findPCISubclass Host.info "0C" "03" =
    Some {| Subclass_ID := "03"; Subclass_Name := "unknown";
            Subclass_ProgrammingInterfaces := [] |} ∧
  findPCISubclass Host.info "03" "80" =
    Some {| Subclass_ID := "80"; Subclass_Name := "unknown";
            Subclass_ProgrammingInterfaces := [] |} ∧
  findPCISubclass Host.info "03" "00" = Some Host.vga.
Proof.
  split; [|split].
  - apply (proj1 (findPCISubclass_spec Host.info "0C" "03")).
    left. vm_compute. reflexivity.
  - apply (proj1 (findPCISubclass_spec Host.info "03" "80")).
    right. exists Host.display. split; [vm_compute; reflexivity|].
    repeat constructor. discriminate.
  - apply (proj2 (findPCISubclass_spec Host.info "03" "00")
             Host.display [] Host.vga []).
    + vm_compute. reflexivity.
    + reflexivity.
    + constructor.
    + reflexivity.
Defined.

(** A file system whose every file holds the given text. *)
Local Abbreviation fs_of blob :=
  {| files := fun _ => Readable (slice_of_string blob);
     ReadDir := fun _ => None |}.

Lemma parseModaliasFile_ranges_only_witness :
  host_parse (fs_of Host.blob) "a" =
    host_parse
      (fs_of "usb:xFFFF10DEyFFFF1C82zzFFFF1043wwFFFF8613--03__00:00 and more")
      "b" ∧
  host_parse (fs_of Host.blob) "a" = Ret (Some Host.modalias_gpu).
Proof.
  split; [|vm_compute; reflexivity].
  apply (parseModaliasFile_ranges_only Host.lower _ _ "a" "b"
           (slice_of_string Host.blob)
           (slice_of_string
              "usb:xFFFF10DEyFFFF1C82zzFFFF1043wwFFFF8613--03__00:00 and more")).
  - reflexivity.
  - reflexivity.
  - vm_compute. lia.
  - vm_compute. lia.
  - vm_compute. lia.
  - vm_compute. lia.
  - repeat constructor.
Defined.

Lemma parseModaliasFile_lengths_witness :
  files Host.fs "/sys/bus/pci/devices/0000:00:14.0/modalias" =
    Readable (slice_of_string Host.blob_usb) ∧
  host_parse Host.fs "/sys/bus/pci/devices/0000:00:14.0/modalias" =
    Ret (Some Host.modalias_usb) ∧
  String.length (classID Host.modalias_usb) = 2 ∧
  String.length (vendorID Host.modalias_usb) = 4.
Proof.
  assert (files Host.fs "/sys/bus/pci/devices/0000:00:14.0/modalias" =
            Readable (slice_of_string Host.blob_usb)) as Hfile
    by reflexivity.
  assert (host_parse Host.fs "/sys/bus/pci/devices/0000:00:14.0/modalias" =
            Ret (Some Host.modalias_usb)) as Hm
    by (vm_compute; reflexivity).
  split; [exact Hfile|]. split; [exact Hm|].
  destruct (parseModaliasFile_lengths Host.lower Host.fs _ _ _ Hfile Hm)
    as [(Hc & _) Hv].
  split; [exact Hc|]. apply Hv. vm_compute. reflexivity.
Defined.

Lemma parseModaliasFile_no_capitals_witness :
  files Host.fs "/sys/bus/pci/devices/0000:00:14.0/modalias" =
    Readable (slice_of_string Host.blob_usb) ∧
  all_ascii (string_of_list_byte (backing (slice_of_string Host.blob_usb)))
    = true ∧
  host_parse Host.fs "/sys/bus/pci/devices/0000:00:14.0/modalias" =
    Ret (Some Host.modalias_usb) ∧
  any_upper (productID Host.modalias_usb) = false.
Proof.
  assert (files Host.fs "/sys/bus/pci/devices/0000:00:14.0/modalias" =
            Readable (slice_of_string Host.blob_usb)) as Hfile
    by reflexivity.
  assert (all_ascii
            (string_of_list_byte (backing (slice_of_string Host.blob_usb)))
          = true) as Hascii by (vm_compute; reflexivity).
  assert (host_parse Host.fs "/sys/bus/pci/devices/0000:00:14.0/modalias" =
            Ret (Some Host.modalias_usb)) as Hm
    by (vm_compute; reflexivity).
  split; [exact Hfile|]. split; [exact Hascii|]. split; [exact Hm|].
  exact (proj1 (proj2 (parseModaliasFile_no_capitals Host.lower Host.fs
                         _ _ _ Hfile Hascii Hm))).
Defined.

Lemma Host_clean_nonempty : ∀ p, Host.clean p ≠ "".
Proof.
  intros p. unfold Host.clean.
  destruct (String.eqb_spec p ""); [discriminate|done].
Defined.

Lemma getDeviceModaliasPath_empty_iff_witness :
  (∀ p, Host.clean p ≠ "") ∧
  (host_path (ctx Host.info) "0000-03-00.0" = "" ↔
   AddressFromString_split "0000-03-00.0" = None) ∧
  (host_path (ctx Host.info) "03:00.0" = "" ↔
   AddressFromString_split "03:00.0" = None).
Proof.
  split; [exact Host_clean_nonempty|]. split.
  - exact (getDeviceModaliasPath_empty_iff AddressFromString_split
             Host.paths Host.clean (ctx Host.info) "0000-03-00.0"
             Host_clean_nonempty).
  - exact (getDeviceModaliasPath_empty_iff AddressFromString_split
             Host.paths Host.clean (ctx Host.info) "03:00.0"
             Host_clean_nonempty).
Defined.

Lemma GetDevice_same_parse_witness :
  AddressFromString_split "0000:03:00.0" = AddressFromString_split "03:00.0" ∧
  host_GetDevice Host.fs Host.info "03:00.0" =
    readdress "03:00.0" (host_GetDevice Host.fs Host.info "0000:03:00.0").
Proof.
  assert (AddressFromString_split "0000:03:00.0" =
          AddressFromString_split "03:00.0") as Hparse by reflexivity.
  split; [exact Hparse|].
  exact (GetDevice_same_parse Host.lower AddressFromString_split Host.paths
           Host.clean Host.fs Host.info "0000:03:00.0" "03:00.0" Hparse).
Defined.

Lemma GetDevice_class_miss_witness :
  host_path (ctx Host.info) "0000:00:14.0" ≠ "" ∧
  host_parse Host.fs (host_path (ctx Host.info) "0000:00:14.0") =
    Ret (Some Host.modalias_usb) ∧
  Classes Host.info !! classID Host.modalias_usb = None ∧
  ∃ dev,
    host_GetDevice Host.fs Host.info "0000:00:14.0" = Ret (Some dev) ∧
    Device_Subclass dev =
      Some {| Subclass_ID := "03"; Subclass_Name := "unknown";
              Subclass_ProgrammingInterfaces := [] |}.
Proof.
  assert (host_path (ctx Host.info) "0000:00:14.0" ≠ "") as Hfp
    by (vm_compute; discriminate).
  assert (host_parse Host.fs (host_path (ctx Host.info) "0000:00:14.0") =
            Ret (Some Host.modalias_usb)) as Hm
    by (vm_compute; reflexivity).
  assert (Classes Host.info !! classID Host.modalias_usb = None) as Hmiss
    by (vm_compute; reflexivity).
  split; [exact Hfp|]. split; [exact Hm|]. split; [exact Hmiss|].
  destruct (GetDevice_class_miss Host.lower AddressFromString_split
              Host.paths Host.clean Host.fs Host.info "0000:00:14.0"
              Host.modalias_usb Hfp Hm Hmiss)
    as (dev & Hdev & _ & Hsc & _).
  exists dev. split; [exact Hdev | exact Hsc].
Defined.

Lemma Host_class_keys :
  ∀ k class, Classes Host.info !! k = Some class → any_upper k = false.
Proof.
  intros k class Hk. unfold Host.info in Hk. simpl in Hk.
  apply lookup_singleton_Some in Hk as [<- _]. reflexivity.
Defined.

Lemma GetDevice_capital_class_witness :
  host_path (ctx Host.info) "0000:00:14.0" ≠ "" ∧
  any_upper
    (string_of_list_byte
       (sub (bytes_of (slice_of_string Host.blob_usb)) 44 46)) = true ∧
  ∃ dev,
    host_GetDevice Host.fs Host.info "0000:00:14.0" = Ret (Some dev) ∧
    Device_Class dev =
      Some {| Class_ID := "0C"; Class_Name := "unknown";
              Class_Subclasses := [] |}.
Proof.
  assert (host_path (ctx Host.info) "0000:00:14.0" ≠ "") as Hfp
    by (vm_compute; discriminate).
  assert (any_upper
            (string_of_list_byte
               (sub (bytes_of (slice_of_string Host.blob_usb)) 44 46))
          = true) as Hup by (vm_compute; reflexivity).
  split; [exact Hfp|]. split; [exact Hup|].
  destruct (GetDevice_capital_class Host.lower AddressFromString_split
              Host.paths Host.clean Host.fs Host.info "0000:00:14.0"
              (slice_of_string Host.blob_usb) Hfp)
    as (dev & Hdev & Hclass).
  - vm_compute. reflexivity.
  - vm_compute. lia.
  - vm_compute. lia.
  - exact Host_class_keys.
  - exact Hup.
  - exists dev. split; [exact Hdev | exact Hclass].
Defined.

Lemma ListDevices_accounts_witness :
  ∃ l,
    ReadDir Host.fs (SysBusPciDevices (Host.paths (ctx Host.info))) =
      Some ["0000:00:1f.3"; "0000:03:00.0"; "0000:00:1f.4"] ∧
    host_ListDevices Host.fs Host.info = Ret l ∧
    length (devices l) + length (stderr l) = 3.
Proof.
  eexists. split; [reflexivity|]. split; [vm_compute; reflexivity|].
  refine (ListDevices_accounts Host.lower AddressFromString_split
            Host.paths Host.clean Host.fs Host.info
            ["0000:00:1f.3"; "0000:03:00.0"; "0000:00:1f.4"] _ _ _).
  - reflexivity.
  - vm_compute. reflexivity.
Defined.

Lemma ListDevices_addresses_witness :
  ∃ l,
    ReadDir Host.fs (SysBusPciDevices (Host.paths (ctx Host.info))) =
      Some ["0000:00:1f.3"; "0000:03:00.0"; "0000:00:1f.4"] ∧
    host_ListDevices Host.fs Host.info = Ret l ∧
    map Device_Address (devices l) = ["0000:03:00.0"] ∧
    stderr l = [msg_GetDevice "0000:00:1f.3"; msg_GetDevice "0000:00:1f.4"].
Proof.
  assert (∃ l, host_ListDevices Host.fs Host.info = Ret l) as [l Hl]
    by (eexists; vm_compute; reflexivity).
  exists l. split; [reflexivity|]. split; [exact Hl|].
  destruct (ListDevices_addresses Host.lower AddressFromString_split
              Host.paths Host.clean Host.fs Host.info
              ["0000:00:1f.3"; "0000:03:00.0"; "0000:00:1f.4"] l
              eq_refl Hl) as [Hdevs Herr].
  split.
  - rewrite Hdevs. vm_compute. reflexivity.
  - rewrite Herr. vm_compute. reflexivity.
Defined.

Lemma Host_capacity :
  ∀ fp data, files Host.fs fp = Readable data → 53 ≤ cap data.
Proof.
  intros fp data. unfold Host.fs. simpl.
  repeat (destruct (String.eqb fp _); [intros [= <-]; vm_compute; lia|]).
  discriminate.
Defined.

Lemma no_Panic_with_capacity_witness :
  (∀ fp data, files Host.fs fp = Readable data → 53 ≤ cap data) ∧
  host_GetDevice Host.fs Host.info "0000:00:02.0" ≠ Panic ∧
  host_ListDevices Host.fs Host.info ≠ Panic.
Proof.
  split; [exact Host_capacity|].
  destruct (no_Panic_with_capacity Host.lower AddressFromString_split
              Host.paths Host.clean Host.fs Host.info Host_capacity)
    as [Hget Hlist].
  split; [exact (Hget "0000:00:02.0") | exact Hlist].
Defined.
